(** * Timesheet generation from planning slots

    A shallow embedding of [PlanningSlot.create_timesheet_from_effective_hours]
    and [PlanningSlot.action_generate_timesheets]
    (schedule_app_changes/models/panning_slot.py), and the properties of the
    hour distribution that the specification states.

    Modelling choices.

    - A [datetime.date] is its proleptic Gregorian ordinal
      ([date.toordinal()]), an integer between 1 (0001-01-01) and 3652059
      (9999-12-31).  Adding a [timedelta] outside that range raises
      [OverflowError]; that is written out in [date_add].
    - Hours are the values of Odoo [Float] fields.  They are modelled as
      rationals with exact arithmetic.  Every finite double is a rational, and
      on the values the loops reach the two agree: [x - x] is exactly 0, and
      [x - 8] is computed exactly for a double [8 < x < 2^56]; a larger [x]
      is not brought to 0 within the 3652059 days of the calendar and so
      ends in [OverflowError] in both readings.  What is stated of one
      iteration is therefore stated below 2^56 hours ([exact_below]); the
      arithmetic of the loop body on doubles themselves is in [Double].  NaN
      and infinities are outside the model.
    - The ORM is a record store: the table of planning slots, the table of
      analytic lines, the next line identifier, and the log of the ORM calls
      made ([search] on either model, [create]).
    - The [while] loop takes fuel; [None] means the fuel ran out, never a
      result of the code. *)

From Stdlib Require Import ZArith QArith Qminmax Qround Lqa Lia List String Ascii Bool.
From Stdlib Require Import DecimalString Decimal Sorted.
From Stdlib Require PrimFloat.
Import ListNotations.

Local Open Scope Z_scope.

(** ** Python outcomes *)

(** The exceptions that leave the method.  The [ValueError] of [strptime]
    is caught at line 24 and never does. *)
Inductive exn : Type :=
| OverflowError.

Inductive result (A : Type) : Type :=
| Ok (a : A)
| Raise (e : exn).

Arguments Ok {A} a.
Arguments Raise {A} e.

Definition bind {A B : Type} (r : result A) (k : A -> result B) : result B :=
  match r with
  | Ok a => k a
  | Raise e => Raise e
  end.

(** ** Dates *)

Definition date : Type := Z.

Definition MINORDINAL : Z := 1.
Definition MAXORDINAL : Z := 3652059.

Definition is_date (d : date) : Prop := MINORDINAL <= d <= MAXORDINAL.

Definition is_dateb (d : date) : bool := (MINORDINAL <=? d) && (d <=? MAXORDINAL).

(** [d + timedelta(days=k)] *)
Definition date_add (d : date) (k : Z) : result date :=
  if is_dateb (d + k) then Ok (d + k) else Raise OverflowError.

(** [(e - s).days] *)
Definition days_between (e s : date) : Z := e - s.

(** [range(n)] *)
Definition range (n : Z) : list Z := map Z.of_nat (seq 0 (Z.to_nat n)).

(** ** Hours *)

Definition hours : Type := Q.

Bind Scope Q_scope with hours.

Definition max_hours_per_day : hours := 8%Q.

(** [x < y] on hours. *)
Definition Qlt_bool (x y : hours) : bool := negb (Qle_bool y x).

(** Python's [min(a, b)]: [b] when [b < a], else [a]. *)
Definition py_min (a b : hours) : hours := if Qlt_bool b a then b else a.

(** ** The hour distribution (lines 57-105) *)

Record allocation : Type := mkAlloc { a_date : date; a_hours : hours }.

(** The variables the two loops update, and the dates whose existing
    timesheet was looked up, in order. *)
Record dstate : Type := mkD {
  timesheet_data : list allocation;
  remaining_hours : hours;
  looked_up : list date
}.

(** The body shared by both loops, lines 69-84 and 90-105.  The subtraction
    is exact; that of the code is on doubles, and the same below 2^56
    hours. *)
Definition day_body (existing : date -> bool) (current_date : date) (st : dstate) : dstate :=
  let hours_for_day := py_min (remaining_hours st) max_hours_per_day in
  mkD (if existing current_date
       then timesheet_data st
       else timesheet_data st ++ [mkAlloc current_date hours_for_day])
      (remaining_hours st - hours_for_day)%Q
      (looked_up st ++ [current_date]).

(** [for day_offset in range(total_days)], lines 63-84, over the offsets left. *)
Fixpoint primary_loop (existing : date -> bool) (start_date : date)
         (offsets : list Z) (st : dstate) : result dstate :=
  match offsets with
  | [] => Ok st
  | day_offset :: rest =>
      if Qle_bool (remaining_hours st) 0 then Ok st
      else
        bind (date_add start_date day_offset) (fun current_date =>
        primary_loop existing start_date rest (day_body existing current_date st))
  end.

(** [while remaining_hours > 0], lines 88-105. *)
Fixpoint spill_loop (fuel : nat) (existing : date -> bool)
         (current_date : date) (st : dstate) : option (result dstate) :=
  if Qlt_bool 0%Q (remaining_hours st) then
    match fuel with
    | O => None
    | S fuel' =>
        match date_add current_date 1 with
        | Raise e => Some (Raise e)
        | Ok current_date' =>
            spill_loop fuel' existing current_date' (day_body existing current_date' st)
        end
    end
  else Some (Ok st).

(** Lines 57-105 for one slot: the final loop variables. *)
Definition distribute_state (fuel : nat) (total_hours : hours)
           (start_date end_date : date) (existing : date -> bool)
  : option (result dstate) :=
  let total_days := days_between end_date start_date + 1 in
  match primary_loop existing start_date (range total_days) (mkD [] total_hours []) with
  | Raise e => Some (Raise e)
  | Ok st => spill_loop fuel existing end_date st
  end.

Definition map_outcome {A B : Type} (f : A -> B) (o : option (result A)) : option (result B) :=
  match o with
  | None => None
  | Some (Ok a) => Some (Ok (f a))
  | Some (Raise e) => Some (Raise e)
  end.

(** The allocations collected for one slot. *)
Definition distribute (fuel : nat) (total_hours : hours)
           (start_date end_date : date) (existing : date -> bool)
  : option (result (list allocation)) :=
  map_outcome timesheet_data (distribute_state fuel total_hours start_date end_date existing).

Definition sum_hours (l : list allocation) : hours :=
  fold_right (fun a acc => (a_hours a + acc)%Q) 0%Q l.

Definition never : date -> bool := fun _ => false.


(** ** The record store *)

(** A [project.project] record, as far as the method reads it. *)
Record project : Type := mkProject {
  p_id : Z;
  allow_timesheets : bool
}.

(** A [planning.slot] record.  A many2one field is [None] when empty; the
    [name] of a slot without one is the empty string, which is falsy as
    Odoo's [False] is. *)
Record slot : Type := mkSlot {
  id : Z;
  name : string;
  resource_id : option Z;
  project_id : option project;
  employee_id : option Z;
  effective_hours : hours;
  allocated_hours : hours
}.

(** The values passed to [create], lines 109-117. *)
Record timesheet_vals : Type := mkVals {
  v_employee_id : option Z;
  v_project_id : option Z;
  v_partner_id : option Z;
  v_date : date;
  v_unit_amount : hours;
  v_name : string;
  v_slot_id : option Z
}.

(** An [account.analytic.line] record. *)
Record line : Type := mkLine {
  l_id : Z;
  l_vals : timesheet_vals
}.

(** The search domain of line 31-39: the customer and, when
    [specific_slot_id] is truthy, the slot. *)
Record slot_domain : Type := mkDomain {
  dom_resource : Z;
  dom_id : option Z
}.

(** The search domain of lines 72-77 and 93-98. *)
Record line_domain : Type := mkLineDomain {
  ld_slot_id : Z;
  ld_employee_id : option Z;
  ld_project_id : option Z;
  ld_date : date
}.

Inductive orm_call : Type :=
| SearchSlots (d : slot_domain)
| SearchLines (d : line_domain)
| CreateLine (v : timesheet_vals).

Record env : Type := mkEnv {
  planning_slot : list slot;
  account_analytic_line : list line;
  next_line_id : Z;
  calls : list orm_call
}.

Definition option_Z_eqb (a b : option Z) : bool :=
  match a, b with
  | Some x, Some y => x =? y
  | None, None => true
  | _, _ => false
  end.

Definition record_id (p : option project) : option Z := option_map p_id p.

(** Whether a slot satisfies the domain of lines 31-39. *)
Definition slot_matches (d : slot_domain) (s : slot) : bool :=
  option_Z_eqb (resource_id s) (Some (dom_resource d))
  && match project_id s with Some p => allow_timesheets p | None => false end
  && (Qlt_bool 0%Q (effective_hours s) || Qlt_bool 0%Q (allocated_hours s))
  && match dom_id d with Some i => id s =? i | None => true end.

(** [self.env['planning.slot'].search(domain)] *)
Definition search_slots (d : slot_domain) (e : env) : list slot * env :=
  (filter (slot_matches d) (planning_slot e),
   mkEnv (planning_slot e) (account_analytic_line e) (next_line_id e)
         (calls e ++ [SearchSlots d])).

Definition line_matches (d : line_domain) (l : line) : bool :=
  option_Z_eqb (v_slot_id (l_vals l)) (Some (ld_slot_id d))
  && option_Z_eqb (v_employee_id (l_vals l)) (ld_employee_id d)
  && option_Z_eqb (v_project_id (l_vals l)) (ld_project_id d)
  && (v_date (l_vals l) =? ld_date d).

Definition line_key (s : slot) (d : date) : line_domain :=
  mkLineDomain (id s) (employee_id s) (record_id (project_id s)) d.

(** Whether [timesheet_env.search([...])] of lines 72-77 is non-empty. *)
Definition existing_timesheet (e : env) (s : slot) (d : date) : bool :=
  existsb (line_matches (line_key s d)) (account_analytic_line e).

Definition log_calls (cs : list orm_call) (e : env) : env :=
  mkEnv (planning_slot e) (account_analytic_line e) (next_line_id e) (calls e ++ cs).

(** [timesheet_env.create(vals)]: the new record takes the next identifier. *)
Definition create (v : timesheet_vals) (e : env) : line * env :=
  let l := mkLine (next_line_id e) v in
  (l, mkEnv (planning_slot e) (account_analytic_line e ++ [l]) (next_line_id e + 1)
            (calls e ++ [CreateLine v])).

(** ** The returned dictionary *)

Record response : Type := mkResponse {
  status : string;
  message : string;
  timesheet_ids : option (list Z)
}.

Definition str_nat (n : nat) : string := NilZero.string_of_uint (Nat.to_uint n).
Definition str_Z (z : Z) : string := NilZero.string_of_int (Z.to_int z).

(** [specific_slot_id] is [None] or an integer; it is truthy when it is a
    non-zero integer. *)
Definition truthy_id (i : option Z) : option Z :=
  match i with
  | Some n => if n =? 0 then None else Some n
  | None => None
  end.

(** ** The method *)

Section Method.

(** [datetime.strptime(s, '%Y-%m-%d').date()] on a string [s]: the date,
    or [None] when it raises [ValueError]. *)
Variable strptime_date : string -> option date.

(** [str(d)] of a date, as the f-string of line 115 formats it. *)
Variable str_date : date -> string.

Definition error_response (msg : string) : response :=
  mkResponse "error" msg None.

(** Lines 50-53. *)
Definition slot_total_hours (specific_slot_id : option Z) (s : slot) : hours :=
  if match truthy_id specific_slot_id with
     | Some i => id s =? i
     | None => false
     end
  then (if Qlt_bool 0%Q (effective_hours s) then effective_hours s else allocated_hours s)
  else (if Qlt_bool 0%Q (effective_hours s) then effective_hours s else allocated_hours s).

(** Lines 109-117. *)
Definition timesheet_vals_of (s : slot) (data : allocation) : timesheet_vals :=
  mkVals (employee_id s)
         (record_id (project_id s))
         (resource_id s)
         (a_date data)
         (a_hours data)
         ("Timesheet from Planning Slot "
            ++ (if String.eqb (name s) "" then str_Z (id s) else name s)
            ++ " - " ++ str_date (a_date data))%string
         (Some (id s)).

(** [for data in timesheet_data], lines 108-119. *)
Fixpoint create_loop (s : slot) (data : list allocation) (e : env)
         (created_timesheets : list Z) : env * list Z :=
  match data with
  | [] => (e, created_timesheets)
  | d :: rest =>
      let (timesheet, e') := create (timesheet_vals_of s d) e in
      create_loop s rest e' (created_timesheets ++ [l_id timesheet])
  end.

(** [for slot in slots], lines 48-119.  An exception leaves the method
    with no store: what becomes of the records created so far is the
    framework's business. *)
Fixpoint slots_loop (fuel : nat) (start_date end_date : date)
         (specific_slot_id : option Z) (slots : list slot) (e : env)
         (created_timesheets : list Z) : option (result (env * list Z)) :=
  match slots with
  | [] => Some (Ok (e, created_timesheets))
  | s :: rest =>
      let total_hours := slot_total_hours specific_slot_id s in
      if Qle_bool total_hours 0 then
        slots_loop fuel start_date end_date specific_slot_id rest e created_timesheets
      else
        match distribute_state fuel total_hours start_date end_date
                               (existing_timesheet e s) with
        | None => None
        | Some (Raise ex) => Some (Raise ex)
        | Some (Ok st) =>
            let e1 := log_calls (map (fun d => SearchLines (line_key s d)) (looked_up st)) e in
            let (e2, created) := create_loop s (timesheet_data st) e1 created_timesheets in
            slots_loop fuel start_date end_date specific_slot_id rest e2 created
        end
  end.

Definition create_timesheet_from_effective_hours (fuel : nat) (self : env)
           (partner_id : Z) (start_date end_date : string)
           (specific_slot_id : option Z) (specific_hours : option hours)
  : option (result (env * response)) :=
  match strptime_date start_date, strptime_date end_date with
  | Some start_date, Some end_date =>
      if end_date <? start_date then
        Some (Ok (self, error_response "Start date cannot be after end date."))
      else
        let domain := mkDomain partner_id (truthy_id specific_slot_id) in
        let (slots, e) := search_slots domain self in
        match slots with
        | [] =>
            Some (Ok (e, error_response
              "No planning slots found with effective or allocated hours for this customer."))
        | _ :: _ =>
            match slots_loop fuel start_date end_date specific_slot_id slots e [] with
            | None => None
            | Some (Raise ex) => Some (Raise ex)
            | Some (Ok (e', created_timesheets)) =>
                Some (Ok (e', mkResponse
                  "success"
                  ("Created " ++ str_nat (List.length created_timesheets)
                             ++ " timesheet entries.")%string
                  (Some created_timesheets)))
            end
        end
  | _, _ => Some (Ok (self, error_response "Invalid date format. Use YYYY-MM-DD."))
  end.

Definition action_generate_timesheets (fuel : nat) (self : env)
           (partner_id : Z) (start_date end_date : string)
           (specific_slot_id : option Z) (specific_hours : option hours)
  : option (result (env * response)) :=
  let result := create_timesheet_from_effective_hours fuel self partner_id
                  start_date end_date specific_slot_id specific_hours in
  result.

End Method.

(** ** The calendar of [datetime], to run the method on date strings *)

Module Calendar.

Definition is_leap (y : Z) : bool :=
  (y mod 4 =? 0) && (negb (y mod 100 =? 0) || (y mod 400 =? 0)).

Definition days_before_year (y : Z) : Z :=
  let y := y - 1 in y * 365 + y / 4 - y / 100 + y / 400.

Definition days_in_month (y m : Z) : Z :=
  if m =? 2 then (if is_leap y then 29 else 28)
  else if (m =? 4) || (m =? 6) || (m =? 9) || (m =? 11) then 30 else 31.

Definition DAYS_BEFORE_MONTH (m : Z) : Z :=
  nth (Z.to_nat m) [0; 0; 31; 59; 90; 120; 151; 181; 212; 243; 273; 304; 334] 0.

Definition days_before_month (y m : Z) : Z :=
  DAYS_BEFORE_MONTH m + (if (2 <? m) && is_leap y then 1 else 0).

Definition ymd2ord (y m d : Z) : Z :=
  days_before_year y + days_before_month y m + d.

Definition ord2ymd (n : Z) : Z * Z * Z :=
  let n := n - 1 in
  let n400 := n / 146097 in let n := n mod 146097 in
  let year := n400 * 400 + 1 in
  let n100 := n / 36524 in let n := n mod 36524 in
  let n4 := n / 1461 in let n := n mod 1461 in
  let n1 := n / 365 in let n := n mod 365 in
  let year := year + n100 * 100 + n4 * 4 + n1 in
  if (n1 =? 4) || (n100 =? 4) then (year - 1, 12, 31)
  else
    let leapyear := (n1 =? 3) && (negb (n4 =? 24) || (n100 =? 3)) in
    let month := Z.shiftr (n + 50) 5 in
    let preceding := DAYS_BEFORE_MONTH month + (if (2 <? month) && leapyear then 1 else 0) in
    if n <? preceding then
      let month := month - 1 in
      let preceding := preceding
                       - (if (month =? 2) && leapyear then 29
                          else days_in_month 1 month) in
      (year, month, n - preceding + 1)
    else (year, month, n - preceding + 1).

Definition digit (c : ascii) : option Z :=
  let n := Z.of_nat (nat_of_ascii c) in
  if (48 <=? n) && (n <=? 57) then Some (n - 48) else None.

(** One or two characters matched by [1[0-2]|0[1-9]|[1-9]], and the rest. *)
Definition month_field (s : string) : option (Z * string) :=
  match s with
  | String a (String b r) =>
      match digit a, digit b with
      | Some 1, Some y => if y <=? 2 then Some (10 + y, r) else Some (1, String b r)
      | Some 0, Some y => if 1 <=? y then Some (y, r) else None
      | Some x, _ => if 1 <=? x then Some (x, String b r) else None
      | None, _ => None
      end
  | String a r =>
      match digit a with
      | Some x => if 1 <=? x then Some (x, r) else None
      | None => None
      end
  | EmptyString => None
  end.

(** One or two characters matched by [3[01]|[12]\d|0[1-9]|[1-9]| [1-9]],
    and the rest. *)
Definition day_field (s : string) : option (Z * string) :=
  match s with
  | String a (String b r) =>
      match digit a, digit b with
      | Some 3, Some y => if y <=? 1 then Some (30 + y, r) else Some (3, String b r)
      | Some 0, Some y => if 1 <=? y then Some (y, r) else None
      | Some x, Some y =>
          if x <=? 2 then Some (10 * x + y, r) else Some (x, String b r)
      | Some x, None => if 1 <=? x then Some (x, String b r) else None
      | None, Some y =>
          if (nat_of_ascii a =? 32)%nat && (1 <=? y) then Some (y, r) else None
      | None, None => None
      end
  | String a r =>
      match digit a with
      | Some x => if 1 <=? x then Some (x, r) else None
      | None => None
      end
  | EmptyString => None
  end.

(** [datetime.strptime(s, '%Y-%m-%d').date()] on ASCII strings. *)
Definition strptime_date (s : string) : option date :=
  match s with
  | String y1 (String y2 (String y3 (String y4 (String "-" r)))) =>
      match digit y1, digit y2, digit y3, digit y4, month_field r with
      | Some a, Some b, Some c, Some d, Some (m, String "-" r') =>
          match day_field r' with
          | Some (dd, EmptyString) =>
              let y := 1000 * a + 100 * b + 10 * c + d in
              if (1 <=? y) && (dd <=? days_in_month y m)
              then Some (ymd2ord y m dd) else None
          | _ => None
          end
      | _, _, _, _, _ => None
      end
  | _ => None
  end.

Definition pad (width : nat) (z : Z) : string :=
  let s := str_Z z in
  (String.concat "" (repeat "0" (width - String.length s)) ++ s)%string.

(** [str(d)], that is [d.isoformat()]. *)
Definition str_date (d : date) : string :=
  let '(y, m, dd) := ord2ymd d in
  (pad 4 y ++ "-" ++ pad 2 m ++ "-" ++ pad 2 dd)%string.

End Calendar.

(** ** What the loops compute, day by day *)

(** The remaining hours after [j] days, from [r]. *)
Fixpoint rem_after (j : nat) (r : hours) : hours :=
  match j with
  | O => r
  | S j' => rem_after j' (r - py_min r max_hours_per_day)%Q
  end.

(** Hours remain before each of the next [j] days. *)
Fixpoint active (j : nat) (r : hours) : Prop :=
  match j with
  | O => True
  | S j' => (0 < r)%Q /\ active j' (r - py_min r max_hours_per_day)%Q
  end.

(** The allocations appended over the days [ds], from [r] remaining hours. *)
Fixpoint emitted (existing : date -> bool) (ds : list date) (r : hours) : list allocation :=
  match ds with
  | [] => []
  | d :: ds' =>
      (if existing d then [] else [mkAlloc d (py_min r max_hours_per_day)])
        ++ emitted existing ds' (r - py_min r max_hours_per_day)%Q
  end.

(** The loop body run over the days [ds]. *)
Fixpoint run_days (existing : date -> bool) (ds : list date) (st : dstate) : dstate :=
  match ds with
  | [] => st
  | d :: ds' => run_days existing ds' (day_body existing d st)
  end.

(** The [n] consecutive days from [d] on. *)
Definition days_from (d : date) (n : nat) : list date :=
  map (fun i => d + Z.of_nat i) (seq 0 n).

Definition hours_ok (a : allocation) : Prop :=
  (0 < a_hours a)%Q /\ (a_hours a <= max_hours_per_day)%Q.

Definition free (existing : date -> bool) (d : date) : bool := negb (existing d).

(** The number of iterations the specification allows the spillover loop. *)
Definition iterations_bound (r : hours) : nat := Z.to_nat (Qceiling (r / 8)).

(** The spillover part of the specification's date invariant: the
    allocations appended after the primary range are dated
    [end_date + 1], [end_date + 2], ... without a gap. *)
Definition spill_consecutive (fuel : nat) (total_hours : hours)
           (start_date end_date : date) (existing : date -> bool) : Prop :=
  forall st1 st2,
    primary_loop existing start_date (range (days_between end_date start_date + 1))
                 (mkD [] total_hours []) = Ok st1 ->
    spill_loop fuel existing end_date st1 = Some (Ok st2) ->
    exists l2,
      timesheet_data st2 = timesheet_data st1 ++ l2 /\
      map a_date l2 = days_from (end_date + 1) (List.length l2).

(** ** Sample data *)

Module Sample.

Definition the_project : project := mkProject 3 true.

(** A slot of customer 7 with 16 effective hours. *)
Definition slot16 : slot := mkSlot 11 "Audit" (Some 7) (Some the_project) (Some 5) 16%Q 0%Q.

(** A slot of customer 7 with no effective hours and 20 allocated hours. *)
Definition slot20 : slot := mkSlot 12 "" (Some 7) (Some the_project) (Some 5) 0%Q 20%Q.

(** A slot of another customer. *)
Definition other : slot := mkSlot 13 "Other" (Some 8) (Some the_project) (Some 5) 8%Q 0%Q.

Definition store : env := mkEnv [slot16; other; slot20] [] 100 [].

(** The store after slot 11 got its timesheets of 2025-05-16 and 2025-05-17. *)
Definition store_done : env :=
  mkEnv [slot16; other] 
        [mkLine 100 (mkVals (Some 5) (Some 3) (Some 7) 739387 8%Q "a" (Some 11));
         mkLine 101 (mkVals (Some 5) (Some 3) (Some 7) 739388 8%Q "b" (Some 11))]
        102 [].

(** 2025-05-16 *)
Definition D : date := 739387.

(** An entry exists for the day after [D] only. *)
Definition day_after_taken (d : date) : bool := d =? D + 1.

End Sample.

(** ** Keys of analytic lines *)

(** The fields the lookup of an existing timesheet compares, lines 72-77. *)
Definition line_key_of (l : line) : option Z * option Z * option Z * date :=
  (v_slot_id (l_vals l), v_employee_id (l_vals l),
   v_project_id (l_vals l), v_date (l_vals l)).

(** The key of the timesheet of slot [s] on day [d]. *)
Definition slot_day_key (s : slot) (d : date) : option Z * option Z * option Z * date :=
  (Some (id s), employee_id s, record_id (project_id s), d).

(** ** Publishing a slot (lines 138-153) *)

(** A [datetime]: its [date()] and the time of day, which is not read. *)
Record datetime : Type := mkDatetime { date_of : date; time_of : Z }.

Section Publish.

Variable strptime_date : string -> option date.
Variable str_date : date -> string.

(** What the base [action_publish] returns. *)
Variable publish_result : Type.

(** [super().action_publish()], the method of [planning.slot] that line 139
    calls; it is not in this repository.  From the store and the record:
    the store it leaves and its result, or the exception it raises. *)
Variable super_action_publish : env -> slot -> result (env * publish_result).

(** [self] holds the fields of the published record as lines 140-151 read
    them, after the base method; [start_datetime] and [end_datetime] are
    its two datetime fields. *)
Definition action_publish (fuel : nat) (e : env) (self : slot)
           (start_datetime end_datetime : datetime)
  : option (result (env * publish_result)) :=
  match super_action_publish e self with
  | Raise ex => Some (Raise ex)
  | Ok (e1, res) =>
      match resource_id self with
      | Some resource =>
          let start_date := str_date (date_of start_datetime) in
          let end_date := str_date (date_of end_datetime) in
          match action_generate_timesheets strptime_date str_date fuel e1
                  resource start_date end_date (Some (id self)) None with
          | None => None
          | Some (Raise ex) => Some (Raise ex)
          | Some (Ok (e2, _)) => Some (Ok (e2, res))
          end
      | None => Some (Ok (e1, res))
      end
  end.

End Publish.

(** ** The loop body on doubles *)

(** 2^56 hours.  A double [x] with [8 < x < 2^56] is a multiple of its unit
    in the last place, which is at most 8, so [x - 8] is a double and the
    subtraction of lines 84 and 105 is exact; from 2^56 on the unit is 16 or
    more and [x - 8] is rounded. *)
Definition exact_below : hours := inject_Z (2 ^ 56).

Module Double.

Import PrimFloat.

Definition max_hours_per_day : float := 8%float.

(** Python's [min(a, b)] on doubles: [b] when [b < a], else [a]. *)
Definition py_min (a b : float) : float := if ltb b a then b else a.

(** [hours_for_day], lines 69 and 90. *)
Definition hours_for_day (remaining_hours : float) : float :=
  py_min remaining_hours max_hours_per_day.

(** [remaining_hours] after lines 84 and 105. *)
Definition decrement (remaining_hours : float) : float :=
  sub remaining_hours (hours_for_day remaining_hours).

(** 1e17 hours, a double above 2^56. *)
Definition huge : float := 100000000000000000%float.

End Double.

(** ** Sample runs *)

Module Runs.

Definition run (fuel : nat) (self : env) (partner_id : Z) (start_date end_date : string)
           (specific_slot_id : option Z) : option (result (env * response)) :=
  create_timesheet_from_effective_hours Calendar.strptime_date Calendar.str_date
    fuel self partner_id start_date end_date specific_slot_id None.

Definition outcome_of (o : option (result (env * response))) : env * response :=
  match o with
  | Some (Ok p) => p
  | _ => (Sample.store, mkResponse "" "" None)
  end.

(** Customer 7 from 2025-05-16 to 2025-05-17 on the sample store. *)
Definition both_slots : env * response :=
  Eval vm_compute in outcome_of (run 3 Sample.store 7 "2025-05-16" "2025-05-17" None).

(** The same call on the store it left. *)
Definition both_slots_again : env * response :=
  Eval vm_compute in outcome_of (run 3 (fst both_slots) 7 "2025-05-16" "2025-05-17" None).

(** The same two days for slot 12 alone. *)
Definition slot12_alone : env * response :=
  Eval vm_compute in
    outcome_of (run 3 Sample.store 7 "2025-05-16" "2025-05-17" (Some 12)).

(** 2025-05-17 on the store where slot 11 has its two entries. *)
Definition one_more_day : env * response :=
  Eval vm_compute in
    outcome_of (run 3 Sample.store_done 7 "2025-05-17" "2025-05-17" None).

(** From 2025-05-16 to the same day, and to 2025-05-18. *)
Definition one_day_range : env * response :=
  Eval vm_compute in outcome_of (run 3 Sample.store 7 "2025-05-16" "2025-05-16" None).

Definition three_day_range : env * response :=
  Eval vm_compute in outcome_of (run 1 Sample.store 7 "2025-05-16" "2025-05-18" None).

End Runs.

(** * Properties *)

(** ** Comparisons and the daily share *)

Lemma Qlt_bool_iff (x y : Q) : Qlt_bool x y = true <-> (x < y)%Q.
Proof.
  unfold Qlt_bool. rewrite negb_true_iff. split.
  - intros H. apply Qnot_le_lt. intros Hle.
    apply Qle_bool_iff in Hle. congruence.
  - intros H. destruct (Qle_bool y x) eqn:E; [|reflexivity].
    apply Qle_bool_iff in E. lra.
Qed.

Lemma Qlt_bool_false (x y : Q) : Qlt_bool x y = false <-> (y <= x)%Q.
Proof.
  unfold Qlt_bool. rewrite negb_false_iff. apply Qle_bool_iff.
Qed.

Lemma Qle_bool_false (x y : Q) : Qle_bool x y = false <-> (y < x)%Q.
Proof.
  split.
  - intros H. apply Qnot_le_lt. intros Hle.
    apply Qle_bool_iff in Hle. congruence.
  - intros H. destruct (Qle_bool x y) eqn:E; [|reflexivity].
    apply Qle_bool_iff in E. lra.
Qed.

(** The share of a day is [8] above eight hours and all that remains below. *)
Lemma py_min_spec (r : hours) :
  ((8 < r)%Q /\ py_min r max_hours_per_day = 8%Q) \/
  ((r <= 8)%Q /\ py_min r max_hours_per_day = r).
Proof.
  unfold py_min, max_hours_per_day.
  destruct (Qlt_bool 8 r) eqn:E.
  - left. apply Qlt_bool_iff in E. auto.
  - right. apply Qlt_bool_false in E. auto.
Qed.

Lemma py_min_is_Qmin (r : hours) : (py_min r max_hours_per_day == Qmin r 8)%Q.
Proof.
  destruct (py_min_spec r) as [[H ->]|[H ->]].
  - rewrite Q.min_r; [reflexivity | lra].
  - rewrite Q.min_l; [reflexivity | lra].
Qed.

Ltac share r :=
  let H := fresh "Hshare" in
  let E := fresh "Eshare" in
  destruct (py_min_spec r) as [[H E]|[H E]]; rewrite ?E in *.

Lemma inject_nat_S (j : nat) :
  (inject_Z (Z.of_nat (S j)) == inject_Z (Z.of_nat j) + 1)%Q.
Proof.
  rewrite Nat2Z.inj_succ. unfold Z.succ. rewrite inject_Z_plus. reflexivity.
Qed.

Lemma inject_nat_nonneg (j : nat) : (0 <= inject_Z (Z.of_nat j))%Q.
Proof.
  change 0%Q with (inject_Z 0). rewrite <- Zle_Qle. lia.
Qed.

(** ** The remaining hours *)

Lemma rem_after_nonneg (j : nat) : forall r, (0 <= r)%Q -> (0 <= rem_after j r)%Q.
Proof.
  induction j as [|j IH]; intros r Hr; cbn [rem_after]; [assumption|].
  apply IH. share r; lra.
Qed.

Lemma rem_after_closed (j : nat) :
  forall r, (0 <= r)%Q ->
    ((r <= 8 * inject_Z (Z.of_nat j))%Q -> (rem_after j r == 0)%Q) /\
    ((8 * inject_Z (Z.of_nat j) <= r)%Q ->
     (rem_after j r == r - 8 * inject_Z (Z.of_nat j))%Q).
Proof.
  induction j as [|j IH]; intros r Hr.
  - cbn [rem_after]. change (inject_Z (Z.of_nat 0)) with 0%Q.
    split; intros H; lra.
  - pose proof (inject_nat_S j) as HS.
    pose proof (inject_nat_nonneg j) as Hj.
    cbn [rem_after].
    share r.
    + destruct (IH (r - 8)%Q ltac:(lra)) as [IH1 IH2].
      split; intros H.
      * apply IH1. lra.
      * rewrite IH2; lra.
    + destruct (IH (r - r)%Q ltac:(lra)) as [IH1 IH2].
      split; intros H.
      * apply IH1. lra.
      * rewrite IH1; lra.
Qed.

Lemma active_iff (j : nat) :
  forall r, active (S j) r <-> (8 * inject_Z (Z.of_nat j) < r)%Q.
Proof.
  induction j as [|j IH]; intros r.
  - cbn [active]. change (inject_Z (Z.of_nat 0)) with 0%Q.
    split; [intros [H _]; lra | intros H; split; [lra | exact I]].
  - pose proof (inject_nat_S j) as HS.
    pose proof (inject_nat_nonneg j) as Hj.
    change (active (S (S j)) r)
      with ((0 < r)%Q /\ active (S j) (r - py_min r max_hours_per_day)%Q).
    rewrite IH.
    share r; split; intros H; try split; lra.
Qed.

(** ** The loop body over a list of days *)

Lemma run_days_remaining existing (ds : list date) :
  forall st, remaining_hours (run_days existing ds st)
             = rem_after (List.length ds) (remaining_hours st).
Proof.
  induction ds as [|d ds IH]; intros st; simpl; [reflexivity|].
  rewrite IH. reflexivity.
Qed.

Lemma run_days_looked_up existing (ds : list date) :
  forall st, looked_up (run_days existing ds st) = looked_up st ++ ds.
Proof.
  induction ds as [|d ds IH]; intros st; simpl.
  - now rewrite app_nil_r.
  - rewrite IH. simpl. now rewrite <- app_assoc.
Qed.

Lemma run_days_data existing (ds : list date) :
  forall st, timesheet_data (run_days existing ds st)
             = timesheet_data st ++ emitted existing ds (remaining_hours st).
Proof.
  induction ds as [|d ds IH]; intros st; simpl.
  - now rewrite app_nil_r.
  - rewrite IH. simpl. destruct (existing d); simpl.
    + reflexivity.
    + now rewrite <- app_assoc.
Qed.


Lemma emitted_dates existing (ds : list date) :
  forall r, map a_date (emitted existing ds r) = filter (free existing) ds.
Proof.
  induction ds as [|d ds IH]; intros r; simpl; [reflexivity|].
  rewrite map_app, IH. unfold free at 2. destruct (existing d); reflexivity.
Qed.

Lemma emitted_hours_ok existing (ds : list date) :
  forall r, active (List.length ds) r -> Forall hours_ok (emitted existing ds r).
Proof.
  induction ds as [|d ds IH]; intros r Hact; simpl; [constructor|].
  destruct Hact as [Hpos Hact].
  apply Forall_app. split; [|apply IH; exact Hact].
  destruct (existing d); constructor; [|constructor].
  unfold hours_ok. cbn [a_hours].
  share r; unfold max_hours_per_day; split; lra.
Qed.

Lemma sum_hours_app (l1 l2 : list allocation) :
  (sum_hours (l1 ++ l2) == sum_hours l1 + sum_hours l2)%Q.
Proof.
  induction l1 as [|a l1 IH]; simpl.
  - lra.
  - fold (sum_hours (l1 ++ l2)). fold (sum_hours l1). rewrite IH. lra.
Qed.

(** With no existing entry, what is allocated and what remains add up. *)
Lemma emitted_sum existing (ds : list date) :
  (forall d, In d ds -> existing d = false) ->
  forall r, (sum_hours (emitted existing ds r) + rem_after (List.length ds) r == r)%Q.
Proof.
  induction ds as [|d ds IH]; intros Hfree r.
  - simpl. lra.
  - cbn [emitted List.length rem_after].
    rewrite (Hfree d (or_introl eq_refl)).
    rewrite sum_hours_app.
    specialize (IH (fun d' H => Hfree d' (or_intror H))
                   (r - py_min r max_hours_per_day)%Q).
    cbn [sum_hours fold_right a_hours]. lra.
Qed.

(** Existing entries take hours away: the allocations never add up to more
    than was there. *)
Lemma emitted_sum_le existing (ds : list date) :
  forall r, (0 <= r)%Q ->
    (sum_hours (emitted existing ds r) + rem_after (List.length ds) r <= r)%Q.
Proof.
  induction ds as [|d ds IH]; intros r Hr.
  - simpl. lra.
  - cbn [emitted List.length rem_after].
    rewrite sum_hours_app.
    assert (H0 : (0 <= r - py_min r max_hours_per_day)%Q) by (share r; lra).
    specialize (IH _ H0).
    assert (Hm : (0 <= py_min r max_hours_per_day)%Q) by (share r; lra).
    destruct (existing d); cbn [sum_hours fold_right a_hours]; lra.
Qed.

(** ** Consecutive days *)

Lemma days_from_S (d : date) (n : nat) :
  days_from d (S n) = d :: days_from (d + 1) n.
Proof.
  unfold days_from. cbn [seq map]. rewrite <- seq_shift, map_map.
  rewrite Z.add_0_r. apply (f_equal (cons d)).
  apply map_ext. intros i. lia.
Qed.

Lemma days_from_length (d : date) (n : nat) : List.length (days_from d n) = n.
Proof. unfold days_from. now rewrite length_map, length_seq. Qed.

Lemma days_from_In (d : date) (n : nat) (x : date) :
  In x (days_from d n) <-> d <= x < d + Z.of_nat n.
Proof.
  unfold days_from. rewrite in_map_iff. split.
  - intros [i [<- Hi]]. apply in_seq in Hi. lia.
  - intros H. exists (Z.to_nat (x - d)). split; [lia|].
    apply in_seq. lia.
Qed.

Lemma days_from_app (d : date) (n m : nat) :
  days_from d (n + m) = days_from d n ++ days_from (d + Z.of_nat n) m.
Proof.
  revert d. induction n as [|n IH]; intros d.
  - simpl. now rewrite Z.add_0_r.
  - change (S n + m)%nat with (S (n + m)). rewrite !days_from_S, IH. simpl.
    do 3 f_equal. lia.
Qed.

Lemma days_from_sorted (d : date) (n : nat) : StronglySorted Z.lt (days_from d n).
Proof.
  revert d. induction n as [|n IH]; intros d.
  - constructor.
  - rewrite days_from_S. constructor; [apply IH|].
    apply Forall_forall. intros x Hx. apply days_from_In in Hx. lia.
Qed.

Lemma filter_sorted (f : date -> bool) (l : list date) :
  StronglySorted Z.lt l -> StronglySorted Z.lt (filter f l).
Proof.
  induction 1 as [|x l Hs IH Hx]; simpl; [constructor|].
  destruct (f x); [|exact IH].
  constructor; [exact IH|].
  apply Forall_forall. intros y Hy. apply filter_In in Hy.
  rewrite Forall_forall in Hx. apply Hx. tauto.
Qed.

Lemma range_days (s : date) (n : Z) :
  map (Z.add s) (range n) = days_from s (Z.to_nat n).
Proof. unfold range, days_from. now rewrite map_map. Qed.

Lemma firstn_days_from (d : date) (j n : nat) :
  (j <= n)%nat -> firstn j (days_from d n) = days_from d j.
Proof.
  intros H. replace n with (j + (n - j))%nat by lia.
  rewrite days_from_app.
  rewrite firstn_app, days_from_length, Nat.sub_diag, firstn_O, app_nil_r.
  apply firstn_all2. rewrite days_from_length. lia.
Qed.

(** ** The two loops as runs of the body *)

Lemma date_add_Ok (d k d' : date) : date_add d k = Ok d' -> d' = d + k /\ is_date d'.
Proof.
  unfold date_add, is_dateb, is_date. intros H.
  destruct (_ && _) eqn:E; inversion H; subst.
  apply andb_true_iff in E. lia.
Qed.

Lemma date_add_valid (d k : date) : is_date (d + k) -> date_add d k = Ok (d + k).
Proof.
  unfold date_add, is_dateb, is_date. intros H.
  replace (_ && _) with true; [reflexivity|].
  symmetry. apply andb_true_iff. lia.
Qed.

Lemma date_add_invalid (d k : date) :
  ~ is_date (d + k) -> date_add d k = Raise OverflowError.
Proof.
  unfold date_add, is_dateb, is_date. intros H.
  destruct (_ && _) eqn:E; [|reflexivity].
  apply andb_true_iff in E. lia.
Qed.

Lemma primary_loop_run existing (s : date) (offsets : list Z) :
  forall st st',
    primary_loop existing s offsets st = Ok st' ->
    exists j,
      (j <= List.length offsets)%nat /\
      st' = run_days existing (map (Z.add s) (firstn j offsets)) st /\
      active j (remaining_hours st) /\
      (j = List.length offsets \/ (remaining_hours st' <= 0)%Q).
Proof.
  induction offsets as [|k rest IH]; intros st st' H; cbn [primary_loop] in H.
  - inversion H; subst. exists 0%nat. simpl. auto.
  - destruct (Qle_bool (remaining_hours st) 0) eqn:E.
    + inversion H; subst. exists 0%nat. simpl.
      apply Qle_bool_iff in E. repeat split; auto. lia.
    + apply Qle_bool_false in E.
      destruct (date_add s k) as [d|] eqn:Hd; cbn [bind] in H; [|discriminate].
      apply date_add_Ok in Hd. destruct Hd as [-> _].
      destruct (IH _ _ H) as [j [Hj [Hst [Hact Hend]]]].
      exists (S j). cbn [List.length firstn map run_days active].
      repeat split; auto; try lia.
      destruct Hend as [->|Hend]; auto.
Qed.

Lemma primary_loop_returns existing (s : date) (offsets : list Z) :
  (forall k, In k offsets -> is_date (s + k)) ->
  forall st, exists st', primary_loop existing s offsets st = Ok st'.
Proof.
  induction offsets as [|k rest IH]; intros Hvalid st; cbn [primary_loop].
  - eauto.
  - destruct (Qle_bool (remaining_hours st) 0); [eauto|].
    rewrite date_add_valid by (apply Hvalid; now left). cbn [bind].
    apply IH. intros k' Hk'. apply Hvalid. now right.
Qed.

Lemma spill_loop_run existing (fuel : nat) :
  forall cur st st',
    spill_loop fuel existing cur st = Some (Ok st') ->
    exists j,
      (j <= fuel)%nat /\
      st' = run_days existing (days_from (cur + 1) j) st /\
      active j (remaining_hours st) /\
      (remaining_hours st' <= 0)%Q /\
      (j = 0%nat \/ cur + Z.of_nat j <= MAXORDINAL).
Proof.
  induction fuel as [|fuel IH]; intros cur st st' H; cbn [spill_loop] in H;
    destruct (Qlt_bool 0 (remaining_hours st)) eqn:E;
    try discriminate;
    try (inversion H; subst; apply Qlt_bool_false in E;
         exists 0%nat; simpl; repeat split; auto; lia).
  apply Qlt_bool_iff in E.
  destruct (date_add cur 1) as [d|] eqn:Hd; [|discriminate].
  apply date_add_Ok in Hd. destruct Hd as [-> Hvalid].
  destruct (IH _ _ _ H) as [j [Hj [Hst [Hact [Hrem Hmax]]]]].
  exists (S j). rewrite days_from_S. cbn [run_days active].
  repeat split; auto; try lia.
  right. unfold is_date in Hvalid. lia.
Qed.

Lemma inject_Z_pred (z : Z) : (inject_Z (z - 1) == inject_Z z - 1)%Q.
Proof.
  unfold Z.sub. rewrite inject_Z_plus. reflexivity.
Qed.

Lemma inject_Z_ge1 (z : Z) : 1 <= z -> (1 <= inject_Z z)%Q.
Proof. intros H. change 1%Q with (inject_Z 1). now rewrite <- Zle_Qle. Qed.

Lemma inject_Z_le0 (z : Z) : z <= 0 -> (inject_Z z <= 0)%Q.
Proof. intros H. change 0%Q with (inject_Z 0). now rewrite <- Zle_Qle. Qed.

Lemma inject_Z_ge0 (z : Z) : 0 <= z -> (0 <= inject_Z z)%Q.
Proof. intros H. change 0%Q with (inject_Z 0). now rewrite <- Zle_Qle. Qed.

(** Enough fuel and enough calendar: the spillover loop returns. *)
Lemma spill_loop_returns existing (fuel : nat) :
  forall cur st,
    0 <= cur <= MAXORDINAL ->
    (remaining_hours st <= 8 * inject_Z (Z.of_nat fuel))%Q ->
    (remaining_hours st <= 8 * inject_Z (MAXORDINAL - cur))%Q ->
    exists st', spill_loop fuel existing cur st = Some (Ok st').
Proof.
  induction fuel as [|fuel IH]; intros cur st Hcur Hfuel Hcal; cbn [spill_loop];
    destruct (Qlt_bool 0 (remaining_hours st)) eqn:E; eauto;
    apply Qlt_bool_iff in E.
  - change (inject_Z (Z.of_nat 0)) with 0%Q in Hfuel. lra.
  - pose proof (inject_nat_S fuel) as HS.
    pose proof (inject_nat_nonneg fuel) as Hf.
    assert (Hlt : cur < MAXORDINAL).
    { destruct (Z.lt_ge_cases cur MAXORDINAL) as [|Hge]; [assumption|].
      pose proof (inject_Z_le0 (MAXORDINAL - cur) ltac:(lia)). lra. }
    rewrite date_add_valid by (unfold is_date, MINORDINAL; lia).
    pose proof (inject_Z_pred (MAXORDINAL - cur)) as Hp.
    replace (MAXORDINAL - cur - 1) with (MAXORDINAL - (cur + 1)) in Hp by lia.
    pose proof (inject_Z_ge1 (MAXORDINAL - cur) ltac:(lia)) as H1.
    apply IH; [lia | |]; cbn [day_body remaining_hours];
      share (remaining_hours st); lra.
Qed.

(** Enough fuel and too little calendar: the spillover loop raises. *)
Lemma spill_loop_overflows existing (fuel : nat) :
  forall cur st,
    0 <= cur <= MAXORDINAL ->
    (remaining_hours st <= 8 * inject_Z (Z.of_nat fuel))%Q ->
    (8 * inject_Z (MAXORDINAL - cur) < remaining_hours st)%Q ->
    spill_loop fuel existing cur st = Some (Raise OverflowError).
Proof.
  induction fuel as [|fuel IH]; intros cur st Hcur Hfuel Hcal;
    pose proof (inject_Z_ge0 (MAXORDINAL - cur) ltac:(lia)) as H0;
    cbn [spill_loop];
    destruct (Qlt_bool 0 (remaining_hours st)) eqn:E;
    try (apply Qlt_bool_false in E; lra).
  - change (inject_Z (Z.of_nat 0)) with 0%Q in Hfuel. lra.
  - pose proof (inject_nat_S fuel) as HS.
    destruct (Z.eq_dec cur MAXORDINAL) as [->|Hne].
    + rewrite date_add_invalid by (unfold is_date; lia). reflexivity.
    + rewrite date_add_valid by (unfold is_date, MINORDINAL; lia).
      pose proof (inject_Z_pred (MAXORDINAL - cur)) as Hp.
      replace (MAXORDINAL - cur - 1) with (MAXORDINAL - (cur + 1)) in Hp by lia.
      pose proof (inject_Z_ge1 (MAXORDINAL - cur) ltac:(lia)) as H1.
      apply IH; [lia | |]; cbn [day_body remaining_hours];
        share (remaining_hours st); lra.
Qed.

(** The spillover loop never needs more fuel than [iterations_bound]. *)
Lemma iterations_bound_enough (r : hours) :
  (r <= 8 * inject_Z (Z.of_nat (iterations_bound r)))%Q.
Proof.
  unfold iterations_bound.
  pose proof (Qle_ceiling (r / 8)) as Hc.
  assert (Hr : (8 * (r / 8) == r)%Q) by (apply Qmult_div_r; discriminate).
  destruct (Z.le_gt_cases 0 (Qceiling (r / 8))) as [Hpos|Hneg].
  - rewrite Z2Nat.id by assumption. lra.
  - replace (Z.to_nat (Qceiling (r / 8))) with 0%nat by lia.
    change (inject_Z (Z.of_nat 0)) with 0%Q.
    pose proof (inject_Z_le0 (Qceiling (r / 8)) ltac:(lia)). lra.
Qed.

(** ** The distribution for one slot *)

Lemma rem_after_le (j : nat) (r : hours) : (0 <= r)%Q -> (rem_after j r <= r)%Q.
Proof.
  intros Hr. pose proof (inject_nat_nonneg j) as Hj.
  destruct (rem_after_closed j r Hr) as [H1 H2].
  destruct (Qlt_le_dec r (8 * inject_Z (Z.of_nat j))) as [Hlt|Hge].
  - rewrite H1; lra.
  - rewrite H2; lra.
Qed.

Lemma map_outcome_Ok {A B : Type} (f : A -> B) (o : option (result A)) (b : B) :
  map_outcome f o = Some (Ok b) -> exists a, o = Some (Ok a) /\ b = f a.
Proof.
  destruct o as [[a|e]|]; simpl; intros H; inversion H; eauto.
Qed.

(** A run that returns went through [n] days of the range and [m] days
    after it. *)
Lemma distribute_state_run (fuel : nat) (total_hours : hours)
      (s e : date) existing (st2 : dstate) :
  distribute_state fuel total_hours s e existing = Some (Ok st2) ->
  exists st1 n m,
    primary_loop existing s (range (days_between e s + 1)) (mkD [] total_hours []) = Ok st1 /\
    spill_loop fuel existing e st1 = Some (Ok st2) /\
    (n <= Z.to_nat (e - s + 1))%nat /\ (m <= fuel)%nat /\
    st1 = run_days existing (days_from s n) (mkD [] total_hours []) /\
    st2 = run_days existing (days_from (e + 1) m) st1 /\
    active n total_hours /\
    active m (rem_after n total_hours) /\
    (n = Z.to_nat (e - s + 1) \/ (rem_after n total_hours <= 0)%Q) /\
    (rem_after m (rem_after n total_hours) <= 0)%Q.
Proof.
  unfold distribute_state, days_between. intros H.
  destruct (primary_loop _ _ _ _) as [st1|] eqn:H1; [|discriminate].
  destruct (primary_loop_run _ _ _ _ _ H1) as [n [Hn [Hst1 [Hact1 Hend1]]]].
  destruct (spill_loop_run _ _ _ _ _ H) as [m [Hm [Hst2 [Hact2 [Hrem2 _]]]]].
  unfold range in Hn, Hend1. rewrite length_map, length_seq in Hn, Hend1.
  rewrite <- firstn_map, range_days, firstn_days_from in Hst1 by exact Hn.
  assert (Hr1 : remaining_hours st1 = rem_after n total_hours).
  { rewrite Hst1, run_days_remaining, days_from_length. reflexivity. }
  assert (Hr2 : remaining_hours st2 = rem_after m (rem_after n total_hours)).
  { rewrite Hst2, run_days_remaining, days_from_length, Hr1. reflexivity. }
  exists st1, n, m. rewrite <- Hr2, <- Hr1. repeat split; auto.
Qed.

(** The allocations of a run that returns. *)
Lemma distribute_run (fuel : nat) (total_hours : hours)
      (s e : date) existing (l : list allocation) :
  distribute fuel total_hours s e existing = Some (Ok l) ->
  exists n m,
    (n <= Z.to_nat (e - s + 1))%nat /\ (m <= fuel)%nat /\
    l = emitted existing (days_from s n) total_hours
        ++ emitted existing (days_from (e + 1) m) (rem_after n total_hours) /\
    active n total_hours /\
    active m (rem_after n total_hours) /\
    (rem_after m (rem_after n total_hours) <= 0)%Q.
Proof.
  unfold distribute. intros H.
  apply map_outcome_Ok in H. destruct H as [st2 [H ->]].
  destruct (distribute_state_run _ _ _ _ _ _ H)
    as [st1 [n [m [_ [_ [Hn [Hm [Hst1 [Hst2 [Ha1 [Ha2 [_ Hrem]]]]]]]]]]]].
  exists n, m. repeat split; auto.
  rewrite Hst2, run_days_data, Hst1, run_days_data, run_days_remaining,
    days_from_length.
  reflexivity.
Qed.

(** Within the calendar and the fuel, the run returns. *)
Lemma distribute_state_returns (fuel : nat) (total_hours : hours)
      (s e : date) existing :
  is_date s -> is_date e -> s <= e ->
  (0 <= total_hours)%Q ->
  (total_hours <= 8 * inject_Z (Z.of_nat fuel))%Q ->
  (total_hours <= 8 * inject_Z (MAXORDINAL - s + 1))%Q ->
  exists st2, distribute_state fuel total_hours s e existing = Some (Ok st2).
Proof.
  intros Hs He Hse H0 Hfuel Hcal.
  unfold is_date, MINORDINAL in Hs, He.
  destruct (primary_loop_returns existing s (range (days_between e s + 1)))
    with (st := mkD [] total_hours []) as [st1 H1].
  { intros k Hk. unfold range in Hk. apply in_map_iff in Hk.
    destruct Hk as [i [<- Hi]]. apply in_seq in Hi.
    unfold days_between in Hi. unfold is_date, MINORDINAL. lia. }
  unfold distribute_state. rewrite H1.
  destruct (primary_loop_run _ _ _ _ _ H1) as [n [Hn [Hst1 [_ Hend]]]].
  unfold range in Hn, Hend. rewrite length_map, length_seq in Hn, Hend.
  assert (Hr1 : remaining_hours st1 = rem_after n total_hours).
  { rewrite Hst1, run_days_remaining, length_map, length_firstn.
    unfold range. rewrite length_map, length_seq.
    cbn [remaining_hours]. f_equal. lia. }
  rewrite Hr1 in Hend.
  pose proof (rem_after_le n total_hours H0) as Hle.
  pose proof (inject_Z_ge0 (MAXORDINAL - e) ltac:(lia)) as Hcal0.
  apply spill_loop_returns; rewrite ?Hr1; [lia | lra |].
  destruct Hend as [->|Hend]; [|lra].
  unfold days_between.
  replace (MAXORDINAL - s + 1) with ((MAXORDINAL - e) + (e - s + 1)) in Hcal by lia.
  rewrite inject_Z_plus in Hcal.
  pose proof (inject_Z_ge0 (e - s + 1) ltac:(lia)) as Hn0.
  destruct (rem_after_closed (Z.to_nat (e - s + 1)) total_hours H0) as [C1 C2].
  rewrite Z2Nat.id in C1, C2 by lia.
  destruct (Qlt_le_dec total_hours (8 * inject_Z (e - s + 1))) as [Hlt|Hge].
  - rewrite C1; lra.
  - rewrite C2; lra.
Qed.

Lemma StronglySorted_app (l1 l2 : list Z) :
  StronglySorted Z.lt l1 -> StronglySorted Z.lt l2 ->
  (forall x y, In x l1 -> In y l2 -> x < y) ->
  StronglySorted Z.lt (l1 ++ l2).
Proof.
  intros H1 H2 H. induction H1 as [|x l1 Hs IH Hx]; simpl; [exact H2|].
  constructor.
  - apply IH. intros a b Ha Hb. apply H; [now right | exact Hb].
  - apply Forall_app. split; [exact Hx|].
    apply Forall_forall. intros y Hy. apply H; [now left | exact Hy].
Qed.

Lemma Forall_dates (P : date -> Prop) (f : date -> bool) (ds : list date)
      existing (r : hours) :
  Forall P ds -> Forall (fun a => P (a_date a)) (emitted existing ds r).
Proof.
  intros H. apply Forall_map with (f := a_date) (P := P).
  rewrite emitted_dates. apply Forall_forall. intros x Hx.
  apply filter_In in Hx. rewrite Forall_forall in H. apply H. tauto.
Qed.

Lemma filter_all (f : date -> bool) (l : list date) :
  (forall x, In x l -> f x = true) -> filter f l = l.
Proof.
  induction l as [|x l IH]; intros H; simpl; [reflexivity|].
  rewrite (H x (or_introl eq_refl)). f_equal. apply IH.
  intros y Hy. apply H. now right.
Qed.

(** Whenever the run returns with no existing entry in the way, the
    allocations add up to the total. *)
Lemma distribute_sum (fuel : nat) (total_hours : hours) (s e : date) existing
      (l : list allocation) :
  (0 <= total_hours)%Q ->
  (forall d, existing d = false) ->
  distribute fuel total_hours s e existing = Some (Ok l) ->
  (sum_hours l == total_hours)%Q.
Proof.
  intros H0 Hfree H.
  destruct (distribute_run _ _ _ _ _ _ H) as [n [m [_ [_ [-> [_ [_ Hrem]]]]]]].
  rewrite sum_hours_app.
  pose proof (emitted_sum existing (days_from s n) (fun d _ => Hfree d) total_hours) as S1.
  pose proof (emitted_sum existing (days_from (e + 1) m) (fun d _ => Hfree d)
                          (rem_after n total_hours)) as S2.
  rewrite days_from_length in S1, S2.
  pose proof (rem_after_nonneg m _ (rem_after_nonneg n _ H0)) as Hge.
  lra.
Qed.

(** Existing entries only take hours away: the allocations of a run never
    add up to more than the total. *)
Lemma distribute_sum_le (fuel : nat) (total_hours : hours) (s e : date) existing
      (l : list allocation) :
  (0 <= total_hours)%Q ->
  distribute fuel total_hours s e existing = Some (Ok l) ->
  (sum_hours l <= total_hours)%Q.
Proof.
  intros H0 H.
  destruct (distribute_run _ _ _ _ _ _ H) as [n [m [_ [_ [-> [_ [_ Hrem]]]]]]].
  rewrite sum_hours_app.
  pose proof (emitted_sum_le existing (days_from s n) total_hours H0) as S1.
  pose proof (rem_after_nonneg n _ H0) as Hn.
  pose proof (emitted_sum_le existing (days_from (e + 1) m) _ Hn) as S2.
  rewrite days_from_length in S1, S2.
  pose proof (rem_after_nonneg m _ Hn) as Hge.
  lra.
Qed.

(** The days the spillover loop looks up are the [j] days after the current
    date, where [8 (j - 1) < remaining <= 8 j]. *)
Lemma spill_loop_days existing (fuel : nat) (cur : date) (st st' : dstate) :
  (0 <= remaining_hours st)%Q ->
  spill_loop fuel existing cur st = Some (Ok st') ->
  exists j,
    looked_up st' = looked_up st ++ days_from (cur + 1) j /\
    (remaining_hours st <= 8 * inject_Z (Z.of_nat j))%Q /\
    (j = 0%nat \/ (8 * inject_Z (Z.of_nat (Nat.pred j)) < remaining_hours st)%Q).
Proof.
  intros H0 H.
  destruct (spill_loop_run _ _ _ _ _ H) as [j [_ [-> [Hact [Hrem _]]]]].
  exists j. rewrite run_days_looked_up. split; [reflexivity|].
  rewrite run_days_remaining, days_from_length in Hrem.
  split.
  - destruct (Qlt_le_dec (8 * inject_Z (Z.of_nat j)) (remaining_hours st))
      as [Hlt|Hle]; [|exact Hle].
    destruct (rem_after_closed j _ H0) as [_ C2].
    rewrite C2 in Hrem; lra.
  - destruct j as [|j]; [now left | right].
    apply active_iff. exact Hact.
Qed.

(** ** The claims about the distributor *)

(** C1 (amended).  For every [total_hours > 0] and every range of dates
    [start_date <= end_date], when no date has an existing entry and the
    days the hours need, at eight hours a day from [start_date] on, end by
    9999-12-31, the distributor returns and the hours of the allocations,
    spillover included, add up to [total_hours] exactly. *)
Theorem C1_hours_add_up (fuel : nat) (total_hours : hours) (s e : date) existing :
  (0 < total_hours)%Q ->
  is_date s -> is_date e -> s <= e ->
  (forall d, existing d = false) ->
  (total_hours <= 8 * inject_Z (MAXORDINAL - s + 1))%Q ->
  (total_hours <= 8 * inject_Z (Z.of_nat fuel))%Q ->
  exists l,
    distribute fuel total_hours s e existing = Some (Ok l) /\
    (sum_hours l == total_hours)%Q.
Proof.
  intros Hpos Hs He Hse Hfree Hcal Hfuel.
  destruct (distribute_state_returns fuel total_hours s e existing)
    as [st2 H]; auto; try lra.
  exists (timesheet_data st2).
  assert (Hd : distribute fuel total_hours s e existing = Some (Ok (timesheet_data st2))).
  { unfold distribute. rewrite H. reflexivity. }
  split; [exact Hd|].
  apply (distribute_sum fuel total_hours s e existing); auto. lra.
Qed.

Lemma C1_hours_add_up_witness :
  (0 < 25)%Q /\ is_date Sample.D /\ is_date (Sample.D + 3) /\
  exists l,
    distribute 4 25 Sample.D (Sample.D + 3) never = Some (Ok l) /\
    (sum_hours l == 25)%Q.
Proof.
  split; [reflexivity|].
  split; [vm_compute; split; discriminate|].
  split; [vm_compute; split; discriminate|].
  apply (C1_hours_add_up 4 25 Sample.D (Sample.D + 3) never).
  - reflexivity.
  - vm_compute; split; discriminate.
  - vm_compute; split; discriminate.
  - vm_compute; discriminate.
  - reflexivity.
  - vm_compute; discriminate.
  - vm_compute; discriminate.
Defined.

(** C1 as stated fails: on the range [9999-12-31, 9999-12-31] sixteen hours
    leave eight for the next day, [date] has none and the loop raises
    [OverflowError]; no allocation comes out. *)
Lemma C1_counterexample :
  distribute 2 16 MAXORDINAL MAXORDINAL never = Some (Raise OverflowError) /\
  ~ (exists fuel l,
        distribute fuel 16 MAXORDINAL MAXORDINAL never = Some (Ok l) /\
        (sum_hours l == 16)%Q).
Proof.
  split; [reflexivity|].
  intros [fuel [l [H _]]].
  destruct fuel; vm_compute in H; discriminate.
Qed.

(** With hours left before each day and every day a date, the range loop
    runs through all its days. *)
Lemma primary_loop_active existing (s : date) (offsets : list Z) :
  forall st,
    (forall k, In k offsets -> is_date (s + k)) ->
    active (List.length offsets) (remaining_hours st) ->
    primary_loop existing s offsets st
    = Ok (run_days existing (map (Z.add s) offsets) st).
Proof.
  induction offsets as [|k rest IH]; intros st Hvalid Hact; [reflexivity|].
  destruct Hact as [Hpos Hact].
  cbn [primary_loop map run_days].
  apply Qle_bool_false in Hpos. rewrite Hpos.
  rewrite date_add_valid by (apply Hvalid; now left). cbn [bind].
  apply IH; [|exact Hact].
  intros k' Hk'. apply Hvalid. now right.
Qed.

(** With hours left before each of [j] days after [cur], none after them,
    and the calendar and the fuel reaching that far, the spillover loop runs
    through those [j] days and returns. *)
Lemma spill_loop_active existing (fuel j : nat) :
  forall cur st,
    (j <= fuel)%nat ->
    0 <= cur /\ cur + Z.of_nat j <= MAXORDINAL ->
    active j (remaining_hours st) ->
    (rem_after j (remaining_hours st) <= 0)%Q ->
    spill_loop fuel existing cur st
    = Some (Ok (run_days existing (days_from (cur + 1) j) st)).
Proof.
  revert j. induction fuel as [|fuel IH]; intros j cur st Hj Hcur Hact Hrem.
  - replace j with 0%nat in * by lia. cbn [rem_after] in Hrem.
    apply Qlt_bool_false in Hrem. cbn [spill_loop]. now rewrite Hrem.
  - destruct j as [|j].
    + cbn [rem_after] in Hrem.
      apply Qlt_bool_false in Hrem. cbn [spill_loop]. now rewrite Hrem.
    + destruct Hact as [Hpos Hact]. cbn [rem_after] in Hrem.
      apply Qlt_bool_iff in Hpos. cbn [spill_loop]. rewrite Hpos.
      rewrite date_add_valid by (unfold is_date, MINORDINAL; lia).
      rewrite days_from_S. cbn [run_days].
      apply IH; try assumption; lia.
Qed.

Lemma emitted_skips existing (ds : list date) (r : hours) (d : date) :
  existing d = true -> ~ In d (map a_date (emitted existing ds r)).
Proof.
  intros Hex Hin. rewrite emitted_dates in Hin.
  apply filter_In in Hin. destruct Hin as [_ Hfree].
  unfold free in Hfree. rewrite Hex in Hfree. discriminate.
Qed.

(** C2 (amended).  A date [d] with an existing entry gets no allocation,
    in the loop body and in the outcome of a whole run; and while fewer than
    2^56 hours remain, where the code's doubles subtract exactly, the
    remaining hours still go down by the full share [min(remaining, 8)]:
    in the loop body, in the range loop and in the spillover loop.  In
    particular eight hours on the range [d, d] give no allocation and leave
    0 hours. *)
Theorem C2_existing_entry_consumes_share existing (d : date) :
  existing d = true ->
  (forall st, timesheet_data (day_body existing d st) = timesheet_data st) /\
  (forall st,
      (remaining_hours st < exact_below)%Q ->
      remaining_hours (day_body existing d st)
      = (remaining_hours st - py_min (remaining_hours st) 8)%Q /\
      (py_min (remaining_hours st) 8 == Qmin (remaining_hours st) 8)%Q) /\
  (forall s k rest st,
      (0 < remaining_hours st)%Q -> (remaining_hours st < exact_below)%Q ->
      date_add s k = Ok d ->
      primary_loop existing s (k :: rest) st
      = primary_loop existing s rest
          (mkD (timesheet_data st)
               (remaining_hours st - py_min (remaining_hours st) 8)
               (looked_up st ++ [d]))) /\
  (forall fuel cur st,
      (0 < remaining_hours st)%Q -> (remaining_hours st < exact_below)%Q ->
      date_add cur 1 = Ok d ->
      spill_loop (S fuel) existing cur st
      = spill_loop fuel existing d
          (mkD (timesheet_data st)
               (remaining_hours st - py_min (remaining_hours st) 8)
               (looked_up st ++ [d]))) /\
  (forall fuel total_hours s e l,
      distribute fuel total_hours s e existing = Some (Ok l) ->
      ~ In d (map a_date l)) /\
  (forall fuel,
      is_date d ->
      distribute_state fuel 8 d d existing = Some (Ok (mkD [] 0 [d]))).
Proof.
  intros Hex. split; [|split; [|split; [|split; [|split]]]].
  - intros st. unfold day_body. cbn [timesheet_data]. now rewrite Hex.
  - intros st _. split; [reflexivity|].
    apply (py_min_is_Qmin (remaining_hours st)).
  - intros s k rest st Hpos _ Hd. cbn [primary_loop].
    apply Qle_bool_false in Hpos. rewrite Hpos, Hd. cbn [bind].
    unfold day_body. now rewrite Hex.
  - intros fuel cur st Hpos _ Hd. cbn [spill_loop].
    apply Qlt_bool_iff in Hpos. rewrite Hpos, Hd.
    unfold day_body. now rewrite Hex.
  - intros fuel total_hours s e l H.
    destruct (distribute_run _ _ _ _ _ _ H) as [n [m [_ [_ [-> _]]]]].
    rewrite map_app, in_app_iff.
    intros [Hin|Hin]; revert Hin; apply emitted_skips; exact Hex.
  - intros fuel Hd. unfold distribute_state, days_between.
    replace (d - d + 1) with 1 by lia.
    change (range 1) with [0]. cbn [primary_loop remaining_hours].
    change (Qle_bool 8 0) with false. cbv iota.
    rewrite date_add_valid by (now rewrite Z.add_0_r).
    rewrite Z.add_0_r. cbn [bind primary_loop]. unfold day_body. rewrite Hex.
    cbn [timesheet_data remaining_hours looked_up app].
    change (8 - py_min 8 max_hours_per_day)%Q with 0%Q.
    destruct fuel; reflexivity.
Qed.

(** C2 as stated fails on doubles from 2^56 hours on: with 1e17 hours
    remaining the share of the day is 8 and the subtraction of line 84
    returns 1e17 again; the day takes nothing off the remaining hours. *)
Lemma C2_counterexample :
  (exact_below < inject_Z (10 ^ 17))%Q /\
  Double.hours_for_day Double.huge = Double.max_hours_per_day /\
  Double.decrement Double.huge = Double.huge.
Proof.
  split; [reflexivity|]. split; reflexivity.
Qed.

Lemma C2_existing_entry_consumes_share_witness :
  Sample.day_after_taken (Sample.D + 1) = true /\
  distribute_state 3 8 (Sample.D + 1) (Sample.D + 1) Sample.day_after_taken
  = Some (Ok (mkD [] 0 [Sample.D + 1])).
Proof.
  split; [reflexivity|].
  apply (C2_existing_entry_consumes_share Sample.day_after_taken (Sample.D + 1)).
  - reflexivity.
  - vm_compute; split; discriminate.
Defined.

(** C3.  Every allocation the distributor emits has more than 0 and at most
    8 hours, whatever the total, the range and the existing entries. *)
Theorem C3_hours_within_cap (fuel : nat) (total_hours : hours) (s e : date)
        existing (l : list allocation) :
  distribute fuel total_hours s e existing = Some (Ok l) ->
  Forall (fun a => (0 < a_hours a)%Q /\ (a_hours a <= 8)%Q) l.
Proof.
  intros H.
  destruct (distribute_run _ _ _ _ _ _ H) as [n [m [_ [_ [-> [Ha1 [Ha2 _]]]]]]].
  apply Forall_app. split; apply emitted_hours_ok;
    rewrite days_from_length; assumption.
Qed.

Lemma C3_hours_within_cap_witness :
  distribute 4 (61 # 2) Sample.D (Sample.D + 1) Sample.day_after_taken
  = Some (Ok [mkAlloc Sample.D 8; mkAlloc (Sample.D + 2) 8;
              mkAlloc (Sample.D + 3) (13 # 2)]) /\
  Forall (fun a => (0 < a_hours a)%Q /\ (a_hours a <= 8)%Q)
         [mkAlloc Sample.D 8; mkAlloc (Sample.D + 2) 8;
          mkAlloc (Sample.D + 3) (13 # 2)].
Proof.
  split; [reflexivity|].
  apply (C3_hours_within_cap 4 (61 # 2) Sample.D (Sample.D + 1)
                             Sample.day_after_taken).
  reflexivity.
Defined.

(** C4 (amended).  For a date [D] with [D+2] no later than 9999-12-31,
    twenty hours on the two-day range [D, D+1] with no existing entry give
    exactly 8 hours on [D], 8 on [D+1] and 4 on [D+2], one day past the
    range. *)
Theorem C4_spill_one_day (fuel : nat) (D : date) existing :
  is_date D -> is_date (D + 2) -> (1 <= fuel)%nat ->
  (forall d, existing d = false) ->
  distribute fuel 20 D (D + 1) existing
  = Some (Ok [mkAlloc D 8; mkAlloc (D + 1) 8; mkAlloc (D + 2) 4]).
Proof.
  intros HD HD2 Hfuel Hfree.
  unfold is_date, MINORDINAL in HD, HD2.
  unfold distribute, distribute_state, days_between.
  replace (D + 1 - D + 1) with 2 by lia.
  rewrite (primary_loop_active existing D (range 2)).
  - rewrite (spill_loop_active existing fuel 1).
    + change (range 2) with [0; 1].
      cbn [map_outcome map days_from seq Z.of_nat run_days].
      unfold day_body. rewrite !Hfree.
      cbn [timesheet_data remaining_hours looked_up app].
      rewrite !Z.add_0_r. replace (D + 1 + 1) with (D + 2) by lia.
      reflexivity.
    + exact Hfuel.
    + lia.
    + repeat split; reflexivity.
    + vm_compute. discriminate.
  - intros k Hk. unfold is_date, MINORDINAL.
    destruct Hk as [<-|[<-|[]]]; lia.
  - repeat split; reflexivity.
Qed.

Lemma C4_spill_one_day_witness :
  is_date Sample.D /\ is_date (Sample.D + 2) /\
  distribute 1 20 Sample.D (Sample.D + 1) never
  = Some (Ok [mkAlloc Sample.D 8; mkAlloc (Sample.D + 1) 8;
              mkAlloc (Sample.D + 2) 4]).
Proof.
  split; [vm_compute; split; discriminate|].
  split; [vm_compute; split; discriminate|].
  apply (C4_spill_one_day 1 Sample.D never).
  - vm_compute; split; discriminate.
  - vm_compute; split; discriminate.
  - apply le_n.
  - reflexivity.
Defined.

(** C4 as stated fails for D = 9999-12-30: the range [D, D+1] is a range of
    dates, the four hours left after it need the day after 9999-12-31, and
    the spillover loop raises [OverflowError]. *)
Lemma C4_counterexample :
  is_date (MAXORDINAL - 1) /\ is_date (MAXORDINAL - 1 + 1) /\
  distribute 1 20 (MAXORDINAL - 1) (MAXORDINAL - 1 + 1) never
  = Some (Raise OverflowError) /\
  ~ (exists fuel,
        distribute fuel 20 (MAXORDINAL - 1) (MAXORDINAL - 1 + 1) never
        = Some (Ok [mkAlloc (MAXORDINAL - 1) 8; mkAlloc (MAXORDINAL - 1 + 1) 8;
                    mkAlloc (MAXORDINAL - 1 + 2) 4])).
Proof.
  split; [vm_compute; split; discriminate|].
  split; [vm_compute; split; discriminate|].
  split; [reflexivity|].
  intros [fuel H]. destruct fuel; vm_compute in H; discriminate.
Qed.

(** C5 (amended).  The dates of the allocations are strictly increasing,
    hence non-decreasing.  Those emitted by the range loop lie in
    [start_date, end_date].  The spillover loop visits the consecutive days
    [end_date + 1], [end_date + 2], ...; the spillover allocations are dated
    after [end_date] and are those of the visited days that have no
    existing entry, so they are consecutive from [end_date + 1] on when no
    day after [end_date] has an existing entry. *)
Theorem C5_dates_in_order (fuel : nat) (total_hours : hours) (s e : date)
        existing (l : list allocation) :
  distribute fuel total_hours s e existing = Some (Ok l) ->
  exists st1 l2 m,
    primary_loop existing s (range (days_between e s + 1)) (mkD [] total_hours [])
    = Ok st1 /\
    l = timesheet_data st1 ++ l2 /\
    StronglySorted Z.lt (map a_date l) /\
    Forall (fun a => s <= a_date a <= e) (timesheet_data st1) /\
    Forall (fun a => e < a_date a) l2 /\
    map a_date l2 = filter (free existing) (days_from (e + 1) m) /\
    ((forall d, e < d -> existing d = false) ->
     map a_date l2 = days_from (e + 1) (List.length l2)).
Proof.
  unfold distribute. intros H.
  apply map_outcome_Ok in H. destruct H as [st2 [H ->]].
  destruct (distribute_state_run _ _ _ _ _ _ H)
    as [st1 [n [m [H1 [_ [Hn [_ [Hst1 [Hst2 _]]]]]]]]].
  exists st1, (emitted existing (days_from (e + 1) m) (remaining_hours st1)), m.
  assert (Hd1 : timesheet_data st1 = emitted existing (days_from s n) total_hours).
  { rewrite Hst1, run_days_data. reflexivity. }
  assert (Hin1 : Forall (fun d => s <= d <= e) (days_from s n)).
  { apply Forall_forall. intros x Hx. apply days_from_In in Hx. lia. }
  assert (Hin2 : Forall (fun d => e < d) (days_from (e + 1) m)).
  { apply Forall_forall. intros x Hx. apply days_from_In in Hx. lia. }
  split; [exact H1|].
  split; [rewrite Hst2, run_days_data; reflexivity|].
  split; [|split; [|split; [|split]]].
  - rewrite Hst2, run_days_data, Hd1, map_app, !emitted_dates.
    apply StronglySorted_app; try (apply filter_sorted, days_from_sorted).
    intros x y Hx Hy. apply filter_In in Hx, Hy.
    destruct Hx as [Hx _], Hy as [Hy _].
    rewrite Forall_forall in Hin1, Hin2.
    specialize (Hin1 x Hx). specialize (Hin2 y Hy). lia.
  - rewrite Hd1. apply (Forall_dates (fun d => s <= d <= e) (free existing)). exact Hin1.
  - apply (Forall_dates (fun d => e < d) (free existing)). exact Hin2.
  - apply emitted_dates.
  - intros Hfree.
    assert (Hall : filter (free existing) (days_from (e + 1) m) = days_from (e + 1) m).
    { apply filter_all. intros x Hx. unfold free.
      rewrite Forall_forall in Hin2. rewrite Hfree; [reflexivity|].
      apply Hin2. exact Hx. }
    rewrite <- (length_map a_date), !emitted_dates, Hall, days_from_length.
    reflexivity.
Qed.

Lemma C5_dates_in_order_witness :
  distribute 3 24 Sample.D Sample.D Sample.day_after_taken
  = Some (Ok [mkAlloc Sample.D 8; mkAlloc (Sample.D + 2) 8]) /\
  exists st1 l2 m,
    primary_loop Sample.day_after_taken Sample.D
                 (range (days_between Sample.D Sample.D + 1)) (mkD [] 24 [])
    = Ok st1 /\
    [mkAlloc Sample.D 8; mkAlloc (Sample.D + 2) 8] = timesheet_data st1 ++ l2 /\
    StronglySorted Z.lt (map a_date [mkAlloc Sample.D 8; mkAlloc (Sample.D + 2) 8]) /\
    Forall (fun a => Sample.D <= a_date a <= Sample.D) (timesheet_data st1) /\
    Forall (fun a => Sample.D < a_date a) l2 /\
    map a_date l2 = filter (free Sample.day_after_taken) (days_from (Sample.D + 1) m) /\
    ((forall d, Sample.D < d -> Sample.day_after_taken d = false) ->
     map a_date l2 = days_from (Sample.D + 1) (List.length l2)).
Proof.
  split; [reflexivity|].
  apply (C5_dates_in_order 3 24 Sample.D Sample.D Sample.day_after_taken).
  reflexivity.
Defined.

(** C5 as stated fails where a day after the range has an existing entry:
    24 hours on the range [D, D] with an entry on [D+1] give allocations on
    [D] and [D+2]; the spillover allocation is not on [end_date + 1]. *)
Lemma C5_counterexample :
  distribute 3 24 Sample.D Sample.D Sample.day_after_taken
  = Some (Ok [mkAlloc Sample.D 8; mkAlloc (Sample.D + 2) 8]) /\
  ~ spill_consecutive 3 24 Sample.D Sample.D Sample.day_after_taken.
Proof.
  split; [reflexivity|].
  intros H.
  destruct (H (mkD [mkAlloc Sample.D 8] 16 [Sample.D])
              (mkD [mkAlloc Sample.D 8; mkAlloc (Sample.D + 2) 8] 0
                   [Sample.D; Sample.D + 1; Sample.D + 2])
              eq_refl eq_refl) as [l2 [Hl Hd]].
  cbn [timesheet_data] in Hl.
  change [mkAlloc Sample.D 8; mkAlloc (Sample.D + 2) 8]
    with ([mkAlloc Sample.D 8] ++ [mkAlloc (Sample.D + 2) 8]) in Hl.
  apply app_inv_head in Hl. subst l2.
  vm_compute in Hd. discriminate.
Qed.

Lemma inject_nat_le (a b : nat) :
  (a <= b)%nat -> (inject_Z (Z.of_nat a) <= inject_Z (Z.of_nat b))%Q.
Proof. intros H. rewrite <- Zle_Qle. lia. Qed.

(** C10 (amended).  While fewer than 2^56 hours remain, where the code's
    doubles subtract exactly, each iteration of the spillover loop takes
    [min(remaining, 8) > 0] off the remaining hours; and for any remaining
    hours the loop ends within [ceil(remaining / 8)] iterations: it
    returns, with no hours remaining, when that many days are left in the
    calendar after the current date, and it raises [OverflowError] when they
    are not. *)
Theorem C10_spill_loop_terminates existing (fuel : nat) (cur : date) (st : dstate) :
  is_date cur ->
  (iterations_bound (remaining_hours st) <= fuel)%nat ->
  (forall d,
      (0 < remaining_hours st)%Q ->
      (remaining_hours st < exact_below)%Q ->
      (0 < Qmin (remaining_hours st) 8)%Q /\
      (remaining_hours (day_body existing d st)
       == remaining_hours st - Qmin (remaining_hours st) 8)%Q) /\
  ((remaining_hours st <= 8 * inject_Z (MAXORDINAL - cur))%Q ->
   exists st',
     spill_loop fuel existing cur st = Some (Ok st') /\
     (remaining_hours st' <= 0)%Q) /\
  ((8 * inject_Z (MAXORDINAL - cur) < remaining_hours st)%Q ->
   spill_loop fuel existing cur st = Some (Raise OverflowError)).
Proof.
  intros Hcur Hfuel.
  unfold is_date, MINORDINAL in Hcur.
  assert (Hf : (remaining_hours st <= 8 * inject_Z (Z.of_nat fuel))%Q).
  { pose proof (iterations_bound_enough (remaining_hours st)).
    pose proof (inject_nat_le _ _ Hfuel). lra. }
  split; [|split].
  - intros d Hpos _. cbn [day_body remaining_hours].
    rewrite <- (py_min_is_Qmin (remaining_hours st)).
    split; [|reflexivity].
    share (remaining_hours st); lra.
  - intros Hcal.
    destruct (spill_loop_returns existing fuel cur st) as [st' H]; auto; [lia|].
    exists st'. split; [exact H|].
    destruct (spill_loop_run _ _ _ _ _ H) as [j [_ [_ [_ [Hrem _]]]]].
    exact Hrem.
  - intros Hcal. apply spill_loop_overflows; auto. lia.
Qed.

Lemma C10_spill_loop_terminates_witness :
  is_date Sample.D /\
  (iterations_bound 20 <= 3)%nat /\
  exists st',
    spill_loop 3 never Sample.D (mkD [] 20 []) = Some (Ok st') /\
    (remaining_hours st' <= 0)%Q.
Proof.
  split; [vm_compute; split; discriminate|].
  split; [vm_compute; apply le_n|].
  apply (C10_spill_loop_terminates never 3 Sample.D (mkD [] 20 [])).
  - vm_compute; split; discriminate.
  - vm_compute; apply le_n.
  - vm_compute; discriminate.
Defined.

(** C10 as stated fails on the last day of the calendar: with eight hours
    remaining after 9999-12-31 the first iteration raises [OverflowError];
    the hours never reach 0 and the distributor does not return.  It also
    fails on doubles from 2^56 hours on: with 1e17 hours remaining an
    iteration takes nothing off. *)
Lemma C10_counterexample :
  iterations_bound 8 = 1%nat /\
  spill_loop 1 never MAXORDINAL (mkD [] 8 []) = Some (Raise OverflowError) /\
  ~ (exists fuel st',
        spill_loop fuel never MAXORDINAL (mkD [] 8 []) = Some (Ok st')) /\
  Double.decrement Double.huge = Double.huge.
Proof.
  split; [reflexivity|].
  split; [reflexivity|].
  split; [|reflexivity].
  intros [fuel [st' H]].
  destruct fuel; vm_compute in H; discriminate.
Qed.

(** ** The method *)

Section MethodFacts.

Variable strptime_date : string -> option date.
Variable str_date : date -> string.

Abbreviation method := (create_timesheet_from_effective_hours strptime_date str_date).

Lemma create_loop_spec (s : slot) (data : list allocation) :
  forall e created,
    exists new,
      create_loop str_date s data e created
      = (mkEnv (planning_slot e) (account_analytic_line e ++ new)
               (next_line_id e + Z.of_nat (List.length data))
               (calls e ++ map (fun a => CreateLine (timesheet_vals_of str_date s a)) data),
         created ++ map l_id new) /\
      map l_vals new = map (timesheet_vals_of str_date s) data.
Proof.
  induction data as [|a data IH]; intros e created.
  - exists []. cbn [create_loop List.length map Z.of_nat].
    rewrite !app_nil_r, Z.add_0_r. destruct e; split; reflexivity.
  - cbn [create_loop create l_id].
    destruct (IH (mkEnv (planning_slot e)
                        (account_analytic_line e ++ [mkLine (next_line_id e) (timesheet_vals_of str_date s a)])
                        (next_line_id e + 1)
                        (calls e ++ [CreateLine (timesheet_vals_of str_date s a)]))
                 (created ++ [next_line_id e])) as [new [Hnew Hvals]].
    exists (mkLine (next_line_id e) (timesheet_vals_of str_date s a) :: new).
    rewrite Hnew. cbn [planning_slot account_analytic_line next_line_id calls
                       map l_id l_vals List.length].
    rewrite <- !app_assoc, Hvals. cbn [app]. split; [|reflexivity].
    do 2 f_equal. lia.
Qed.

(** Within the calendar and the fuel, the loop over the slots returns; the
    identifiers it adds are those of the lines it appends to the store. *)
Lemma slots_loop_returns (fuel : nat) (s e : date) (specific_slot_id : option Z)
      (slots : list slot) :
  is_date s -> is_date e -> s <= e ->
  (forall sl, In sl slots ->
     (slot_total_hours specific_slot_id sl <= 8 * inject_Z (MAXORDINAL - s + 1))%Q /\
     (slot_total_hours specific_slot_id sl <= 8 * inject_Z (Z.of_nat fuel))%Q) ->
  forall en created,
    exists en' new,
      slots_loop str_date fuel s e specific_slot_id slots en created
      = Some (Ok (en', created ++ map l_id new)) /\
      account_analytic_line en' = account_analytic_line en ++ new /\
      planning_slot en' = planning_slot en.
Proof.
  intros Hs He Hse.
  induction slots as [|sl rest IH]; intros Hfit en created.
  - exists en, []. cbn [slots_loop map]. rewrite !app_nil_r. auto.
  - cbn [slots_loop].
    destruct (Hfit sl (or_introl eq_refl)) as [Hcal Hfuel].
    specialize (IH (fun x Hx => Hfit x (or_intror Hx))).
    destruct (Qle_bool (slot_total_hours specific_slot_id sl) 0) eqn:E.
    + apply IH.
    + apply Qle_bool_false in E.
      destruct (distribute_state_returns fuel (slot_total_hours specific_slot_id sl)
                  s e (existing_timesheet en sl)) as [st Hst]; auto; try lra.
      rewrite Hst.
      destruct (create_loop_spec sl (timesheet_data st)
                  (log_calls (map (fun d => SearchLines (line_key sl d)) (looked_up st)) en)
                  created) as [new1 [Hc _]].
      rewrite Hc.
      match goal with
      | |- context [slots_loop _ _ _ _ _ rest ?en1 ?cr] =>
          destruct (IH en1 cr) as [en' [new2 [Hl [Hlines Hslots]]]]
      end.
      exists en', (new1 ++ new2). rewrite Hl.
      cbn [account_analytic_line planning_slot log_calls] in Hlines, Hslots.
      rewrite <- app_assoc in Hlines.
      rewrite map_app, Hlines, !app_assoc. auto.
Qed.

(** C6.  When either date string is malformed, or the start date parses
    to a date after the end date, the method returns the error dictionary
    (status ['error'] and a message) and raises nothing; the store it
    leaves is the one it got: no slot was searched, no line was looked up
    or created. *)
Theorem C6_invalid_dates_rejected (fuel : nat) (self : env) (partner_id : Z)
        (start_date end_date : string) (specific_slot_id : option Z)
        (specific_hours : option hours) :
  strptime_date start_date = None \/
  strptime_date end_date = None \/
  (exists s e, strptime_date start_date = Some s /\
               strptime_date end_date = Some e /\ e < s) ->
  exists msg,
    method fuel self partner_id start_date end_date specific_slot_id specific_hours
    = Some (Ok (self, mkResponse "error" msg None)) /\
    (msg = "Invalid date format. Use YYYY-MM-DD."%string \/
     msg = "Start date cannot be after end date."%string).
Proof.
  unfold create_timesheet_from_effective_hours, error_response.
  intros [H|[H|[s [e [Hs [He Hlt]]]]]].
  - rewrite H. eexists. split; [reflexivity | now left].
  - rewrite H. destruct (strptime_date start_date);
      eexists; (split; [reflexivity | now left]).
  - rewrite Hs, He. apply Z.ltb_lt in Hlt. rewrite Hlt.
    eexists. split; [reflexivity | now right].
Qed.

(** C7.  With valid dates, when the search finds no slot of the customer
    that allows timesheets and has hours, the method returns the error
    dictionary with the message that says so; the search is the only call
    made and the lines of the store are as they were. *)
Theorem C7_no_slots_error (fuel : nat) (self : env) (partner_id : Z)
        (start_date end_date : string) (specific_slot_id : option Z)
        (specific_hours : option hours) (s e : date) :
  strptime_date start_date = Some s ->
  strptime_date end_date = Some e ->
  s <= e ->
  filter (slot_matches (mkDomain partner_id (truthy_id specific_slot_id)))
         (planning_slot self) = [] ->
  exists self',
    method fuel self partner_id start_date end_date specific_slot_id specific_hours
    = Some (Ok (self', mkResponse "error"
         "No planning slots found with effective or allocated hours for this customer."
         None)) /\
    account_analytic_line self' = account_analytic_line self /\
    next_line_id self' = next_line_id self /\
    calls self' = calls self
                  ++ [SearchSlots (mkDomain partner_id (truthy_id specific_slot_id))].
Proof.
  unfold create_timesheet_from_effective_hours, error_response, search_slots.
  intros Hs He Hse Hnone.
  rewrite Hs, He, Hnone.
  replace (e <? s) with false by (symmetry; apply Z.ltb_ge; lia).
  eexists. split; [reflexivity|]. cbn. auto.
Qed.

(** C8 (amended).  With valid dates and at least one slot found, the
    method returns status ['success'] with the identifiers of the lines
    it created, few or none, provided that for every slot found the days
    its hours need, at eight hours a day from the start date on, end by
    9999-12-31. *)
Theorem C8_success (fuel : nat) (self : env) (partner_id : Z)
        (start_date end_date : string) (specific_slot_id : option Z)
        (specific_hours : option hours) (s e : date) :
  strptime_date start_date = Some s ->
  strptime_date end_date = Some e ->
  is_date s -> is_date e -> s <= e ->
  filter (slot_matches (mkDomain partner_id (truthy_id specific_slot_id)))
         (planning_slot self) <> [] ->
  (forall sl,
      In sl (filter (slot_matches (mkDomain partner_id (truthy_id specific_slot_id)))
                    (planning_slot self)) ->
      (slot_total_hours specific_slot_id sl <= 8 * inject_Z (MAXORDINAL - s + 1))%Q /\
      (slot_total_hours specific_slot_id sl <= 8 * inject_Z (Z.of_nat fuel))%Q) ->
  exists self' new,
    method fuel self partner_id start_date end_date specific_slot_id specific_hours
    = Some (Ok (self', mkResponse "success"
         ("Created " ++ str_nat (List.length new) ++ " timesheet entries.")
         (Some (map l_id new)))) /\
    account_analytic_line self' = account_analytic_line self ++ new.
Proof.
  unfold create_timesheet_from_effective_hours, search_slots.
  intros Hs He Hds Hde Hse Hfound Hfit.
  rewrite Hs, He.
  replace (e <? s) with false by (symmetry; apply Z.ltb_ge; lia).
  destruct (filter _ (planning_slot self)) as [|sl rest] eqn:Hslots;
    [contradiction|].
  match goal with
  | |- context [slots_loop _ _ _ _ _ _ ?en ?cr] =>
      destruct (slots_loop_returns fuel s e specific_slot_id (sl :: rest)
                  Hds Hde Hse Hfit en cr) as [self' [new [Hl [Hlines _]]]]
  end.
  rewrite Hl. exists self', new.
  rewrite app_nil_l, length_map. split; [reflexivity|].
  exact Hlines.
Qed.

(** C9.  The method and the action that wraps it do not read
    [specific_hours]: two calls that differ in it alone have the same
    outcome, store and response. *)
Theorem C9_specific_hours_ignored (fuel : nat) (self : env) (partner_id : Z)
        (start_date end_date : string) (specific_slot_id : option Z)
        (h1 h2 : option hours) :
  method fuel self partner_id start_date end_date specific_slot_id h1
  = method fuel self partner_id start_date end_date specific_slot_id h2 /\
  action_generate_timesheets strptime_date str_date fuel self partner_id
                             start_date end_date specific_slot_id h1
  = action_generate_timesheets strptime_date str_date fuel self partner_id
                               start_date end_date specific_slot_id h2.
Proof.
  split; reflexivity.
Qed.

End MethodFacts.

(** ** The method on the sample store *)

Lemma C6_invalid_dates_rejected_witness :
  Calendar.strptime_date "16/05/2025" = None /\
  exists msg,
    create_timesheet_from_effective_hours Calendar.strptime_date Calendar.str_date
      3 Sample.store 7 "16/05/2025" "2025-05-17" None None
    = Some (Ok (Sample.store, mkResponse "error" msg None)) /\
    (msg = "Invalid date format. Use YYYY-MM-DD."%string \/
     msg = "Start date cannot be after end date."%string).
Proof.
  split; [reflexivity|].
  apply (C6_invalid_dates_rejected Calendar.strptime_date Calendar.str_date
           3 Sample.store 7 "16/05/2025" "2025-05-17" None None).
  left. reflexivity.
Defined.

(** The other two ways into C6: a malformed end date, and a start date
    after the end date. *)
Example invalid_dates_rejected_examples :
  create_timesheet_from_effective_hours Calendar.strptime_date Calendar.str_date
    3 Sample.store 7 "2025-05-16" "2025-02-30" None None
  = Some (Ok (Sample.store,
              mkResponse "error" "Invalid date format. Use YYYY-MM-DD." None)) /\
  create_timesheet_from_effective_hours Calendar.strptime_date Calendar.str_date
    3 Sample.store 7 "2025-05-18" "2025-05-17" None None
  = Some (Ok (Sample.store,
              mkResponse "error" "Start date cannot be after end date." None)).
Proof.
  split; reflexivity.
Qed.

Lemma C7_no_slots_error_witness :
  Calendar.strptime_date "2025-05-16" = Some Sample.D /\
  Calendar.strptime_date "2025-05-17" = Some (Sample.D + 1) /\
  filter (slot_matches (mkDomain 9 None)) (planning_slot Sample.store) = [] /\
  exists self',
    create_timesheet_from_effective_hours Calendar.strptime_date Calendar.str_date
      3 Sample.store 9 "2025-05-16" "2025-05-17" None None
    = Some (Ok (self', mkResponse "error"
         "No planning slots found with effective or allocated hours for this customer."
         None)) /\
    account_analytic_line self' = account_analytic_line Sample.store /\
    next_line_id self' = next_line_id Sample.store /\
    calls self' = calls Sample.store ++ [SearchSlots (mkDomain 9 None)].
Proof.
  split; [reflexivity|].
  split; [reflexivity|].
  split; [reflexivity|].
  apply (C7_no_slots_error Calendar.strptime_date Calendar.str_date
           3 Sample.store 9 "2025-05-16" "2025-05-17" None None
           Sample.D (Sample.D + 1)).
  - reflexivity.
  - reflexivity.
  - vm_compute; discriminate.
  - reflexivity.
Defined.

Lemma C8_success_witness :
  Calendar.strptime_date "2025-05-16" = Some Sample.D /\
  Calendar.strptime_date "2025-05-17" = Some (Sample.D + 1) /\
  filter (slot_matches (mkDomain 7 None)) (planning_slot Sample.store)
  = [Sample.slot16; Sample.slot20] /\
  exists self' new,
    create_timesheet_from_effective_hours Calendar.strptime_date Calendar.str_date
      3 Sample.store 7 "2025-05-16" "2025-05-17" None None
    = Some (Ok (self', mkResponse "success"
         ("Created " ++ str_nat (List.length new) ++ " timesheet entries.")
         (Some (map l_id new)))) /\
    account_analytic_line self' = account_analytic_line Sample.store ++ new.
Proof.
  split; [reflexivity|].
  split; [reflexivity|].
  split; [reflexivity|].
  apply (C8_success Calendar.strptime_date Calendar.str_date
           3 Sample.store 7 "2025-05-16" "2025-05-17" None None
           Sample.D (Sample.D + 1)).
  - reflexivity.
  - reflexivity.
  - vm_compute; split; discriminate.
  - vm_compute; split; discriminate.
  - vm_compute; discriminate.
  - vm_compute; discriminate.
  - intros sl Hin. vm_compute in Hin.
    destruct Hin as [<-|[<-|[]]]; split; vm_compute; discriminate.
Defined.

(** The run of the witness: five lines, two for slot 11 and three for
    slot 12. *)
Example success_run :
  exists self',
    create_timesheet_from_effective_hours Calendar.strptime_date Calendar.str_date
      3 Sample.store 7 "2025-05-16" "2025-05-17" None None
    = Some (Ok (self', mkResponse "success" "Created 5 timesheet entries."
                                  (Some [100; 101; 102; 103; 104]))) /\
    map (fun l => (v_slot_id (l_vals l), v_date (l_vals l), v_unit_amount (l_vals l)))
        (account_analytic_line self')
    = [(Some 11, Sample.D, 8%Q); (Some 11, Sample.D + 1, 8%Q);
       (Some 12, Sample.D, 8%Q); (Some 12, Sample.D + 1, 8%Q);
       (Some 12, Sample.D + 2, 4%Q)].
Proof.
  eexists. split; reflexivity.
Qed.

(** Success with nothing created: every date of slot 11 has its entry. *)
Example success_nothing_created :
  exists self',
    create_timesheet_from_effective_hours Calendar.strptime_date Calendar.str_date
      3 Sample.store_done 7 "2025-05-16" "2025-05-17" (Some 11) None
    = Some (Ok (self', mkResponse "success" "Created 0 timesheet entries." (Some []))) /\
    account_analytic_line self' = account_analytic_line Sample.store_done.
Proof.
  eexists. split; reflexivity.
Qed.

(** C8 as stated fails on the last day of the calendar: the dates are
    valid, two slots are found, and the sixteen hours of slot 11 need the
    day after 9999-12-31; the method raises [OverflowError] and returns no
    dictionary. *)
Lemma C8_counterexample :
  Calendar.strptime_date "9999-12-31" = Some MAXORDINAL /\
  filter (slot_matches (mkDomain 7 None)) (planning_slot Sample.store)
  = [Sample.slot16; Sample.slot20] /\
  create_timesheet_from_effective_hours Calendar.strptime_date Calendar.str_date
    3 Sample.store 7 "9999-12-31" "9999-12-31" None None
  = Some (Raise OverflowError) /\
  ~ (exists fuel self' response,
        create_timesheet_from_effective_hours Calendar.strptime_date Calendar.str_date
          fuel Sample.store 7 "9999-12-31" "9999-12-31" None None
        = Some (Ok (self', response))).
Proof.
  split; [reflexivity|].
  split; [reflexivity|].
  split; [reflexivity|].
  intros [fuel [self' [response H]]].
  destruct fuel; vm_compute in H; discriminate.
Qed.

(** * Further properties of the distribution *)

Lemma run_days_app existing (ds1 ds2 : list date) :
  forall st, run_days existing (ds1 ++ ds2) st
             = run_days existing ds2 (run_days existing ds1 st).
Proof.
  induction ds1 as [|d ds1 IH]; intros st; simpl; [reflexivity | apply IH].
Qed.

Lemma rem_after_add (n m : nat) :
  forall r, rem_after (n + m) r = rem_after m (rem_after n r).
Proof.
  induction n as [|n IH]; intros r; [reflexivity|].
  cbn [Nat.add rem_after]. apply IH.
Qed.

Lemma active_add (n m : nat) :
  forall r, active n r -> active m (rem_after n r) -> active (n + m) r.
Proof.
  induction n as [|n IH]; intros r Hn Hm; [exact Hm|].
  destruct Hn as [Hpos Hn]. cbn [Nat.add active rem_after] in *.
  split; [exact Hpos | apply IH; assumption].
Qed.

Lemma active_nonpos (m : nat) (r : hours) : (r <= 0)%Q -> active m r -> m = 0%nat.
Proof.
  intros Hr Hact. destruct m as [|m]; [reflexivity|].
  destruct Hact as [Hpos _]. lra.
Qed.

Lemma Qlt_inject_Z (a b : Z) : (8 * inject_Z a < 8 * inject_Z b)%Q -> a < b.
Proof. intros H. rewrite Zlt_Qlt. lra. Qed.

(** The number of days a total takes is [ceil(total / 8)]. *)
Lemma days_needed (j : nat) (r : hours) :
  (0 < r)%Q -> active j r -> (rem_after j r <= 0)%Q -> j = iterations_bound r.
Proof.
  intros Hr Hact Hrem.
  destruct j as [|j]; [cbn [rem_after] in Hrem; lra|].
  apply active_iff in Hact.
  assert (Hle : (r <= 8 * inject_Z (Z.of_nat (S j)))%Q).
  { destruct (Qlt_le_dec (8 * inject_Z (Z.of_nat (S j))) r) as [Hlt|Hle]; [|exact Hle].
    destruct (rem_after_closed (S j) r ltac:(lra)) as [_ C2].
    rewrite C2 in Hrem; lra. }
  unfold iterations_bound.
  pose proof (Qle_ceiling (r / 8)) as Hc1.
  pose proof (Qceiling_lt (r / 8)) as Hc2.
  assert (Hdiv : (8 * (r / 8) == r)%Q) by (apply Qmult_div_r; discriminate).
  assert (H1 : Z.of_nat j < Qceiling (r / 8)) by (apply Qlt_inject_Z; lra).
  assert (H2 : Qceiling (r / 8) - 1 < Z.of_nat (S j)) by (apply Qlt_inject_Z; lra).
  lia.
Qed.

(** A run that returns has looked at the first [ceil(total / 8)] days from
    the start date, whatever the end date and the existing entries: the
    final loop variables are those of the loop body run over these days. *)
Lemma distribute_state_closed (fuel : nat) (total_hours : hours) (s e : date)
      existing (st : dstate) :
  s <= e -> (0 < total_hours)%Q ->
  distribute_state fuel total_hours s e existing = Some (Ok st) ->
  st = run_days existing (days_from s (iterations_bound total_hours))
                (mkD [] total_hours []).
Proof.
  intros Hse Hpos H.
  destruct (distribute_state_run _ _ _ _ _ _ H)
    as [st1 [n [m [_ [_ [Hn [_ [Hst1 [Hst2 [Ha1 [Ha2 [Hend Hrem]]]]]]]]]]]].
  assert (Hm : n = Z.to_nat (e - s + 1) \/ m = 0%nat).
  { destruct Hend as [Hend|Hend]; [now left | right].
    exact (active_nonpos m _ Hend Ha2). }
  assert (Hds : days_from s (n + m) = days_from s n ++ days_from (e + 1) m).
  { rewrite days_from_app. destruct Hm as [->| ->].
    - do 2 f_equal. lia.
    - reflexivity. }
  rewrite <- rem_after_add in Hrem.
  rewrite <- (days_needed (n + m) total_hours Hpos (active_add _ _ _ Ha1 Ha2) Hrem).
  rewrite Hds, run_days_app, <- Hst1. exact Hst2.
Qed.

Lemma emitted_none existing (ds : list date) :
  (forall d, In d ds -> existing d = true) ->
  forall r, emitted existing ds r = [].
Proof.
  induction ds as [|d ds IH]; intros Hall r; [reflexivity|].
  cbn [emitted]. rewrite (Hall d (or_introl eq_refl)).
  apply IH. intros d' Hd'. apply Hall. now right.
Qed.

(** The hours allocated on a day are what is left of the total after eight
    hours for each day before it, and at most eight. *)
Lemma emitted_hours_closed existing (j : nat) :
  forall (d0 : date) (r : hours),
    active j r ->
    Forall (fun a => (a_hours a == Qmin (r - 8 * inject_Z (a_date a - d0)) 8)%Q)
           (emitted existing (days_from d0 j) r).
Proof.
  induction j as [|j IH]; intros d0 r Hact; [constructor|].
  destruct Hact as [Hpos Hact].
  rewrite days_from_S. cbn [emitted].
  apply Forall_app. split.
  - destruct (existing d0); constructor; [|constructor].
    cbn [a_hours a_date]. rewrite Z.sub_diag.
    rewrite (py_min_is_Qmin r).
    apply Q.min_compat; [|reflexivity].
    change (inject_Z 0) with 0%Q. lra.
  - specialize (IH (d0 + 1) _ Hact).
    assert (Hr8 : j = 0%nat \/ (8 < r)%Q).
    { destruct j as [|j]; [now left | right].
      destruct Hact as [Hpos' _]. share r; lra. }
    destruct Hr8 as [->|Hr8]; [constructor|].
    eapply Forall_impl; [|exact IH].
    intros a Ha. cbn beta in Ha. rewrite Ha.
    apply Q.min_compat; [|reflexivity].
    replace (a_date a - d0) with ((a_date a - (d0 + 1)) + 1) by lia.
    rewrite inject_Z_plus. change (inject_Z 1) with 1%Q.
    share r; lra.
Qed.

Lemma active_bound (r : hours) : (0 < r)%Q -> active (iterations_bound r) r.
Proof.
  intros Hr. unfold iterations_bound.
  pose proof (Qle_ceiling (r / 8)) as Hc1.
  pose proof (Qceiling_lt (r / 8)) as Hc2.
  assert (Hdiv : (8 * (r / 8) == r)%Q) by (apply Qmult_div_r; discriminate).
  assert (H1 : 0 < Qceiling (r / 8)).
  { apply Qlt_inject_Z. change (inject_Z 0) with 0%Q. lra. }
  replace (Z.to_nat (Qceiling (r / 8)))
    with (S (Z.to_nat (Qceiling (r / 8) - 1))) by lia.
  apply active_iff. rewrite Z2Nat.id by lia. lra.
Qed.

(** X1.  A run of the distributor that returns, for a range
    [start_date <= end_date] and a positive total, allocates on exactly the
    days without an existing entry among the first [ceil(total / 8)] days
    from [start_date]; the allocation of a day [d] is
    [min(total - 8 (d - start_date), 8)] hours; with no existing entry the
    days are consecutive and there are [ceil(total / 8)] allocations. *)
Theorem distribute_closed_form (fuel : nat) (total_hours : hours) (s e : date)
        existing (l : list allocation) :
  s <= e -> (0 < total_hours)%Q ->
  distribute fuel total_hours s e existing = Some (Ok l) ->
  map a_date l = filter (free existing) (days_from s (iterations_bound total_hours)) /\
  Forall (fun a => (a_hours a == Qmin (total_hours - 8 * inject_Z (a_date a - s)) 8)%Q) l /\
  ((forall d, existing d = false) ->
   map a_date l = days_from s (iterations_bound total_hours) /\
   List.length l = iterations_bound total_hours).
Proof.
  intros Hse Hpos H. unfold distribute in H.
  apply map_outcome_Ok in H. destruct H as [st [H ->]].
  rewrite (distribute_state_closed _ _ _ _ _ _ Hse Hpos H), run_days_data.
  cbn [timesheet_data remaining_hours]. rewrite app_nil_l.
  split; [apply emitted_dates|].
  split; [apply emitted_hours_closed, active_bound; exact Hpos|].
  intros Hfree.
  assert (Hd : map a_date (emitted existing (days_from s (iterations_bound total_hours))
                                   total_hours)
               = days_from s (iterations_bound total_hours)).
  { rewrite emitted_dates. apply filter_all. intros x _. unfold free.
    now rewrite Hfree. }
  split; [exact Hd|].
  rewrite <- (length_map a_date), Hd. apply days_from_length.
Qed.

Lemma distribute_closed_form_witness :
  distribute 2 (61 # 2) Sample.D (Sample.D + 1) Sample.day_after_taken
  = Some (Ok [mkAlloc Sample.D 8; mkAlloc (Sample.D + 2) 8;
              mkAlloc (Sample.D + 3) (13 # 2)]) /\
  iterations_bound (61 # 2) = 4%nat /\
  map a_date [mkAlloc Sample.D 8; mkAlloc (Sample.D + 2) 8;
              mkAlloc (Sample.D + 3) (13 # 2)]
  = filter (free Sample.day_after_taken) (days_from Sample.D (iterations_bound (61 # 2))).
Proof.
  split; [reflexivity|].
  split; [reflexivity|].
  apply (distribute_closed_form 2 (61 # 2) Sample.D (Sample.D + 1)
           Sample.day_after_taken).
  - vm_compute; discriminate.
  - reflexivity.
  - reflexivity.
Defined.


(** Too little calendar for the total: the run raises. *)
Lemma distribute_state_overflows (fuel : nat) (total_hours : hours) (s e : date) existing :
  is_date s -> is_date e -> s <= e ->
  (total_hours <= 8 * inject_Z (Z.of_nat fuel))%Q ->
  (8 * inject_Z (MAXORDINAL - s + 1) < total_hours)%Q ->
  distribute_state fuel total_hours s e existing = Some (Raise OverflowError).
Proof.
  intros Hs He Hse Hfuel Hcal.
  unfold is_date, MINORDINAL in Hs, He.
  pose proof (inject_Z_ge0 (MAXORDINAL - s + 1) ltac:(lia)) as Hc0.
  assert (H0 : (0 <= total_hours)%Q) by lra.
  destruct (primary_loop_returns existing s (range (days_between e s + 1)))
    with (st := mkD [] total_hours []) as [st1 H1].
  { intros k Hk. unfold range in Hk. apply in_map_iff in Hk.
    destruct Hk as [i [<- Hi]]. apply in_seq in Hi.
    unfold days_between in Hi. unfold is_date, MINORDINAL. lia. }
  unfold distribute_state. rewrite H1.
  destruct (primary_loop_run _ _ _ _ _ H1) as [n [Hn [Hst1 [_ Hend]]]].
  unfold range in Hn, Hend. rewrite length_map, length_seq in Hn, Hend.
  unfold days_between in Hn, Hend.
  assert (Hr1 : remaining_hours st1 = rem_after n total_hours).
  { rewrite Hst1, run_days_remaining, length_map, length_firstn.
    unfold range. rewrite length_map, length_seq.
    cbn [remaining_hours]. f_equal. unfold days_between. lia. }
  pose proof (rem_after_le n total_hours H0) as Hle.
  replace (MAXORDINAL - s + 1) with ((MAXORDINAL - e) + (e - s + 1)) in Hcal by lia.
  rewrite inject_Z_plus in Hcal.
  pose proof (inject_Z_ge0 (MAXORDINAL - e) ltac:(lia)) as Hce.
  assert (Hnle : (inject_Z (Z.of_nat n) <= inject_Z (e - s + 1))%Q).
  { rewrite <- Zle_Qle. lia. }
  pose proof (inject_nat_nonneg n) as Hn0.
  destruct (rem_after_closed n total_hours H0) as [_ C2].
  specialize (C2 ltac:(lra)).
  assert (HnN : n = Z.to_nat (e - s + 1)).
  { destruct Hend as [Hend|Hend]; [exact Hend|]. rewrite Hr1, C2 in Hend. lra. }
  assert (HN : (inject_Z (Z.of_nat n) == inject_Z (e - s + 1))%Q).
  { rewrite HnN, Z2Nat.id by lia. reflexivity. }
  apply spill_loop_overflows; [lia | |];
    rewrite Hr1; [lra | rewrite C2; lra].
Qed.

(** X3.  When the days a total needs, at eight hours a day from the start
    date on, do not end by 9999-12-31, the distributor raises
    [OverflowError], whatever the existing entries. *)
Theorem distribute_overflows (fuel : nat) (total_hours : hours) (s e : date) existing :
  is_date s -> is_date e -> s <= e ->
  (total_hours <= 8 * inject_Z (Z.of_nat fuel))%Q ->
  (8 * inject_Z (MAXORDINAL - s + 1) < total_hours)%Q ->
  distribute fuel total_hours s e existing = Some (Raise OverflowError).
Proof.
  intros Hs He Hse Hfuel Hcal. unfold distribute.
  rewrite (distribute_state_overflows fuel total_hours s e existing); auto.
Qed.

Lemma distribute_overflows_witness :
  is_date (MAXORDINAL - 1) /\
  distribute 4 (49 # 2) (MAXORDINAL - 1) MAXORDINAL Sample.day_after_taken
  = Some (Raise OverflowError).
Proof.
  split; [vm_compute; split; discriminate|].
  apply (distribute_overflows 4 (49 # 2) (MAXORDINAL - 1) MAXORDINAL
                              Sample.day_after_taken).
  - vm_compute; split; discriminate.
  - vm_compute; split; discriminate.
  - vm_compute; discriminate.
  - vm_compute; discriminate.
  - reflexivity.
Defined.

(** X4.  With nothing to distribute, a total of 0 hours or less, the two
    loops do nothing: no allocation, no lookup of an existing entry, the
    total untouched; for any dates, in or out of order. *)
Theorem distribute_nothing (fuel : nat) (total_hours : hours) (s e : date) existing :
  (total_hours <= 0)%Q ->
  distribute_state fuel total_hours s e existing = Some (Ok (mkD [] total_hours [])).
Proof.
  intros Hle. unfold distribute_state.
  assert (H1 : forall offsets,
             primary_loop existing s offsets (mkD [] total_hours [])
             = Ok (mkD [] total_hours [])).
  { intros [|k rest]; [reflexivity|]. cbn [primary_loop remaining_hours].
    apply Qle_bool_iff in Hle. now rewrite Hle. }
  rewrite H1.
  apply Qlt_bool_false in Hle.
  destruct fuel; cbn [spill_loop remaining_hours]; now rewrite Hle.
Qed.

Lemma distribute_nothing_witness :
  (0 <= 0)%Q /\
  distribute_state 0 0 Sample.D (Sample.D + 3) never = Some (Ok (mkD [] 0 [])).
Proof.
  split; [vm_compute; discriminate|].
  apply (distribute_nothing 0 0 Sample.D (Sample.D + 3) never).
  vm_compute; discriminate.
Defined.

(** * Further properties of the method *)

Lemma option_Z_eqb_eq (a b : option Z) : option_Z_eqb a b = true <-> a = b.
Proof.
  destruct a as [x|], b as [y|]; simpl; split; intros H;
    try discriminate; try reflexivity.
  - apply Z.eqb_eq in H. now subst.
  - inversion H. apply Z.eqb_refl.
Qed.

Lemma line_matches_iff (s : slot) (d : date) (l : line) :
  line_matches (line_key s d) l = true <-> line_key_of l = slot_day_key s d.
Proof.
  unfold line_matches, line_key, line_key_of, slot_day_key.
  cbn [ld_slot_id ld_employee_id ld_project_id ld_date].
  rewrite !andb_true_iff, !option_Z_eqb_eq, Z.eqb_eq.
  split.
  - intros [[[-> ->] ->] ->]. reflexivity.
  - intros H. inversion H. auto.
Qed.

Lemma existing_timesheet_iff (e : env) (s : slot) (d : date) :
  existing_timesheet e s d = true
  <-> In (slot_day_key s d) (map line_key_of (account_analytic_line e)).
Proof.
  unfold existing_timesheet. rewrite existsb_exists, in_map_iff.
  split; intros [l [H1 H2]]; exists l.
  - apply line_matches_iff in H2. auto.
  - split; [exact H2 | apply line_matches_iff; exact H1].
Qed.

(** The allocations of a run for a range in order: within the cap, from the
    start date on, on different days, none on a day with an entry. *)
Lemma distribute_state_allocs (fuel : nat) (total_hours : hours) (s e : date)
      existing (st : dstate) :
  s <= e -> (0 < total_hours)%Q ->
  distribute_state fuel total_hours s e existing = Some (Ok st) ->
  Forall (fun a => hours_ok a /\ s <= a_date a /\ existing (a_date a) = false)
         (timesheet_data st) /\
  NoDup (map a_date (timesheet_data st)) /\
  (forall d, In d (looked_up st) ->
             existing d = true \/ In d (map a_date (timesheet_data st))).
Proof.
  intros Hse Hpos H.
  rewrite (distribute_state_closed _ _ _ _ _ _ Hse Hpos H).
  rewrite run_days_data, run_days_looked_up.
  cbn [timesheet_data remaining_hours looked_up]. rewrite !app_nil_l.
  set (ds := days_from s (iterations_bound total_hours)).
  assert (Hdates : map a_date (emitted existing ds total_hours) = filter (free existing) ds)
    by apply emitted_dates.
  split; [|split].
  - pose proof (emitted_hours_ok existing ds total_hours) as Hok.
    unfold ds in Hok at 1. rewrite days_from_length in Hok.
    specialize (Hok (active_bound _ Hpos)).
    apply Forall_forall. intros a Ha.
    rewrite Forall_forall in Hok. split; [apply Hok; exact Ha|].
    assert (Hin : In (a_date a) (filter (free existing) ds)).
    { rewrite <- Hdates. apply in_map. exact Ha. }
    apply filter_In in Hin. destruct Hin as [Hin Hfree].
    apply days_from_In in Hin. split; [lia|].
    unfold free in Hfree. now apply negb_true_iff in Hfree.
  - rewrite Hdates. apply NoDup_filter.
    pose proof (days_from_sorted s (iterations_bound total_hours)) as Hs.
    fold ds in Hs. clearbody ds. clear -Hs.
    induction Hs as [|x l Hs IH Hx]; constructor; [|exact IH].
    intros Hin. rewrite Forall_forall in Hx. specialize (Hx x Hin). lia.
  - intros d Hd. rewrite Hdates.
    destruct (existing d) eqn:E; [now left | right].
    apply filter_In. split; [exact Hd|]. unfold free. now rewrite E.
Qed.

Section MethodMore.

Variable strptime_date : string -> option date.
Variable str_date : date -> string.

Lemma timesheet_vals_key (s : slot) (a : allocation) (l : line) :
  l_vals l = timesheet_vals_of str_date s a ->
  line_key_of l = slot_day_key s (a_date a).
Proof.
  intros H. unfold line_key_of. rewrite H. reflexivity.
Qed.

(** What one round of the loop over the slots does. *)
Lemma slots_loop_step (fuel : nat) (sd ed : date) (spec : option Z)
      (s : slot) (rest : list slot) (e : env) (c : list Z) (r : env * list Z) :
  slots_loop str_date fuel sd ed spec (s :: rest) e c = Some (Ok r) ->
  ((slot_total_hours spec s <= 0)%Q /\
   slots_loop str_date fuel sd ed spec rest e c = Some (Ok r)) \/
  ((0 < slot_total_hours spec s)%Q /\
   exists st new e2,
     distribute_state fuel (slot_total_hours spec s) sd ed (existing_timesheet e s)
     = Some (Ok st) /\
     map l_vals new = map (timesheet_vals_of str_date s) (timesheet_data st) /\
     planning_slot e2 = planning_slot e /\
     account_analytic_line e2 = account_analytic_line e ++ new /\
     slots_loop str_date fuel sd ed spec rest e2 (c ++ map l_id new) = Some (Ok r)).
Proof.
  cbn [slots_loop]. intros H.
  destruct (Qle_bool (slot_total_hours spec s) 0) eqn:E.
  - left. apply Qle_bool_iff in E. auto.
  - right. apply Qle_bool_false in E. split; [exact E|].
    destruct (distribute_state _ _ _ _ _) as [[st|ex]|] eqn:Hst; try discriminate.
    destruct (create_loop_spec str_date s (timesheet_data st)
                (log_calls (map (fun d => SearchLines (line_key s d)) (looked_up st)) e) c)
      as [new [Hc Hvals]].
    rewrite Hc in H.
    eexists st, new, _. split; [reflexivity|]. split; [exact Hvals|].
    split; [|split; [|exact H]]; reflexivity.
Qed.

(** The lines a returning loop over the slots appends. *)
Lemma slots_loop_new (fuel : nat) (sd ed : date) (spec : option Z) (slots : list slot) :
  sd <= ed ->
  forall e c e' c',
    slots_loop str_date fuel sd ed spec slots e c = Some (Ok (e', c')) ->
    exists new,
      account_analytic_line e' = account_analytic_line e ++ new /\
      planning_slot e' = planning_slot e /\
      c' = c ++ map l_id new /\
      Forall (fun l => exists s a,
                  In s slots /\ l_vals l = timesheet_vals_of str_date s a /\
                  hours_ok a /\ sd <= a_date a) new.
Proof.
  intros Hse. induction slots as [|s rest IH]; intros e c e' c' H.
  - cbn [slots_loop] in H. inversion H; subst.
    exists []. rewrite !app_nil_r. auto.
  - destruct (slots_loop_step _ _ _ _ _ _ _ _ _ H)
      as [[_ Hrest]|[Hpos [st [new1 [e2 [Hst [Hvals [Hsl [Hl Hrest]]]]]]]]].
    + destruct (IH _ _ _ _ Hrest) as [new [Hl [Hs [Hc Hall]]]].
      exists new. repeat split; auto.
      eapply Forall_impl; [|exact Hall].
      intros l [s' [a [Hin Hrestl]]]. exists s', a. split; [now right | exact Hrestl].
    + destruct (IH _ _ _ _ Hrest) as [new2 [Hl2 [Hs2 [Hc2 Hall2]]]].
      exists (new1 ++ new2).
      rewrite Hl2, Hl, Hs2, Hsl, Hc2, map_app, !app_assoc.
      repeat split; auto.
      apply Forall_app. split.
      * destruct (distribute_state_allocs _ _ _ _ _ _ Hse Hpos Hst) as [Hok _].
        clear -Hvals Hok. revert new1 Hvals.
        induction Hok as [|a data Ha Hok IHok]; intros [|l new1] Hvals;
          try discriminate; constructor.
        -- cbn [map] in Hvals. inversion Hvals.
           exists s, a. split; [now left|]. tauto.
        -- apply IHok. cbn [map] in Hvals. now inversion Hvals.
      * eapply Forall_impl; [|exact Hall2].
        intros l [s' [a [Hin Hrestl]]]. exists s', a. split; [now right | exact Hrestl].
Qed.

End MethodMore.

Section MethodLines.

Variable strptime_date : string -> option date.
Variable str_date : date -> string.

(** The lines a returning call appends, each from an allocation of a slot
    the search found. *)
Lemma method_new_lines (fuel : nat) (self : env) (partner_id : Z)
      (start_date end_date : string) (specific_slot_id : option Z)
      (specific_hours : option hours) (self' : env) (r : response) :
  create_timesheet_from_effective_hours strptime_date str_date fuel self partner_id
    start_date end_date specific_slot_id specific_hours = Some (Ok (self', r)) ->
  exists new,
    account_analytic_line self' = account_analytic_line self ++ new /\
    planning_slot self' = planning_slot self /\
    (status r = "success"%string -> timesheet_ids r = Some (map l_id new)) /\
    Forall (fun l => exists s a sd,
                In s (filter (slot_matches (mkDomain partner_id (truthy_id specific_slot_id)))
                             (planning_slot self)) /\
                strptime_date start_date = Some sd /\
                l_vals l = timesheet_vals_of str_date s a /\
                hours_ok a /\ sd <= a_date a) new.
Proof.
  unfold create_timesheet_from_effective_hours, search_slots, error_response.
  intros H.
  assert (Hnone : forall msg, Some (Ok (self, mkResponse "error" msg None))
                              = Some (Ok (self', r)) ->
          exists new,
            account_analytic_line self' = account_analytic_line self ++ new /\
            planning_slot self' = planning_slot self /\
            (status r = "success"%string -> timesheet_ids r = Some (map l_id new)) /\
            Forall (fun l => exists s a sd,
                In s (filter (slot_matches (mkDomain partner_id (truthy_id specific_slot_id)))
                             (planning_slot self)) /\
                strptime_date start_date = Some sd /\
                l_vals l = timesheet_vals_of str_date s a /\
                hours_ok a /\ sd <= a_date a) new).
  { intros msg E. inversion E; subst. exists []. rewrite app_nil_r.
    repeat split; auto. cbn. discriminate. }
  destruct (strptime_date start_date) as [sd|] eqn:Hs; [|eapply Hnone; exact H].
  destruct (strptime_date end_date) as [ed|] eqn:He; [|eapply Hnone; exact H].
  destruct (ed <? sd) eqn:Hord; [eapply Hnone; exact H|].
  apply Z.ltb_ge in Hord.
  destruct (filter _ (planning_slot self)) as [|s0 rest] eqn:Hslots.
  - inversion H; subst. exists []. cbn. rewrite app_nil_r.
    repeat split; auto. discriminate.
  - destruct (slots_loop _ _ _ _ _ _ _ _) as [[[e1 created]|ex]|] eqn:Hloop;
      try discriminate.
    inversion H; subst. clear H.
    destruct (slots_loop_new str_date _ _ _ _ _ Hord _ _ _ _ Hloop)
      as [new [Hl [Hsl [Hc Hall]]]].
    exists new. cbn [account_analytic_line planning_slot] in Hl, Hsl.
    rewrite app_nil_l in Hc. subst created.
    repeat split; auto.
    eapply Forall_impl; [|exact Hall].
    intros l [s [a [Hin [Hv [Hok Hd]]]]]. exists s, a, sd. auto.
Qed.

(** X5.  Every timesheet line a call creates has more than 0 and at most 8
    hours and is dated on or after the start date; the identifiers of a
    successful call are those of the lines appended to the store, and the
    planning slots are left as they were. *)
Theorem created_lines_within_cap (fuel : nat) (self : env) (partner_id : Z)
        (start_date end_date : string) (specific_slot_id : option Z)
        (specific_hours : option hours) (self' : env) (r : response) :
  create_timesheet_from_effective_hours strptime_date str_date fuel self partner_id
    start_date end_date specific_slot_id specific_hours = Some (Ok (self', r)) ->
  exists new,
    account_analytic_line self' = account_analytic_line self ++ new /\
    planning_slot self' = planning_slot self /\
    (status r = "success"%string -> timesheet_ids r = Some (map l_id new)) /\
    Forall (fun l =>
              (0 < v_unit_amount (l_vals l))%Q /\ (v_unit_amount (l_vals l) <= 8)%Q /\
              exists sd, strptime_date start_date = Some sd /\ sd <= v_date (l_vals l))
           new.
Proof.
  intros H. destruct (method_new_lines _ _ _ _ _ _ _ _ _ H) as [new [Hl [Hs [Hids Hall]]]].
  exists new. repeat split; auto.
  eapply Forall_impl; [|exact Hall].
  intros l [s [a [sd [_ [Hsd [Hv [[Hpos Hcap] Hd]]]]]]].
  rewrite Hv. cbn [timesheet_vals_of v_unit_amount v_date].
  repeat split; auto. exists sd. auto.
Qed.

(** X6.  Every timesheet line a call creates belongs to a slot of the store
    that the search matches: it carries that slot's identifier, employee
    and project, its customer is the [partner_id] of the call, the project
    allows timesheets, and when [specific_slot_id] is given (not [None],
    not 0) the slot is that one. *)
Theorem created_lines_of_found_slots (fuel : nat) (self : env) (partner_id : Z)
        (start_date end_date : string) (specific_slot_id : option Z)
        (specific_hours : option hours) (self' : env) (r : response) :
  create_timesheet_from_effective_hours strptime_date str_date fuel self partner_id
    start_date end_date specific_slot_id specific_hours = Some (Ok (self', r)) ->
  exists new,
    account_analytic_line self' = account_analytic_line self ++ new /\
    Forall (fun l => exists s p,
                In s (planning_slot self) /\
                project_id s = Some p /\ allow_timesheets p = true /\
                v_slot_id (l_vals l) = Some (id s) /\
                v_employee_id (l_vals l) = employee_id s /\
                v_project_id (l_vals l) = Some (p_id p) /\
                v_partner_id (l_vals l) = Some partner_id /\
                (forall i, truthy_id specific_slot_id = Some i -> id s = i))
           new.
Proof.
  intros H. destruct (method_new_lines _ _ _ _ _ _ _ _ _ H) as [new [Hl [_ [_ Hall]]]].
  exists new. split; [exact Hl|].
  eapply Forall_impl; [|exact Hall].
  intros l [s [a [sd [Hin [_ [Hv _]]]]]].
  apply filter_In in Hin. destruct Hin as [Hin Hm].
  unfold slot_matches in Hm. cbn [dom_resource dom_id] in Hm.
  rewrite !andb_true_iff in Hm. destruct Hm as [[[Hres Hproj] _] Hid].
  apply option_Z_eqb_eq in Hres.
  destruct (project_id s) as [p|] eqn:Hp; [|discriminate].
  exists s, p. rewrite Hv.
  cbn [timesheet_vals_of v_slot_id v_employee_id v_project_id v_partner_id].
  rewrite Hp. cbn [record_id option_map].
  repeat split; auto.
  intros i Hi. rewrite Hi in Hid. now apply Z.eqb_eq.
Qed.

End MethodLines.

Lemma created_lines_within_cap_witness :
  Runs.run 3 Sample.store 7 "2025-05-16" "2025-05-17" None = Some (Ok Runs.both_slots) /\
  snd Runs.both_slots
  = mkResponse "success" "Created 5 timesheet entries." (Some [100; 101; 102; 103; 104]) /\
  exists new,
    account_analytic_line (fst Runs.both_slots)
    = account_analytic_line Sample.store ++ new /\
    Forall (fun l =>
              (0 < v_unit_amount (l_vals l))%Q /\ (v_unit_amount (l_vals l) <= 8)%Q /\
              exists sd, Calendar.strptime_date "2025-05-16" = Some sd /\
                         sd <= v_date (l_vals l))
           new.
Proof.
  assert (H : Runs.run 3 Sample.store 7 "2025-05-16" "2025-05-17" None
              = Some (Ok (fst Runs.both_slots, snd Runs.both_slots)))
    by (vm_compute; reflexivity).
  split; [vm_compute; reflexivity|].
  split; [reflexivity|].
  destruct (created_lines_within_cap Calendar.strptime_date Calendar.str_date
              3 Sample.store 7 "2025-05-16" "2025-05-17" None None _ _ H)
    as [new [Hl [_ [_ Hall]]]].
  exists new. split; [exact Hl | exact Hall].
Defined.

Lemma created_lines_of_found_slots_witness :
  Runs.run 3 Sample.store 7 "2025-05-16" "2025-05-17" (Some 12)
  = Some (Ok Runs.slot12_alone) /\
  snd Runs.slot12_alone
  = mkResponse "success" "Created 3 timesheet entries." (Some [100; 101; 102]) /\
  exists new,
    account_analytic_line (fst Runs.slot12_alone)
    = account_analytic_line Sample.store ++ new /\
    Forall (fun l => exists s p,
                In s (planning_slot Sample.store) /\
                project_id s = Some p /\ allow_timesheets p = true /\
                v_slot_id (l_vals l) = Some (id s) /\
                v_employee_id (l_vals l) = employee_id s /\
                v_project_id (l_vals l) = Some (p_id p) /\
                v_partner_id (l_vals l) = Some 7 /\
                (forall i, truthy_id (Some 12) = Some i -> id s = i))
           new.
Proof.
  assert (H : Runs.run 3 Sample.store 7 "2025-05-16" "2025-05-17" (Some 12)
              = Some (Ok (fst Runs.slot12_alone, snd Runs.slot12_alone)))
    by (vm_compute; reflexivity).
  split; [vm_compute; reflexivity|].
  split; [reflexivity|].
  apply (created_lines_of_found_slots Calendar.strptime_date Calendar.str_date
           3 Sample.store 7 "2025-05-16" "2025-05-17" (Some 12) None _ _ H).
Defined.

(** ** One timesheet per slot and day *)

Lemma existing_timesheet_more (e e' : env) (extra : list line) (s : slot) (d : date) :
  account_analytic_line e' = account_analytic_line e ++ extra ->
  existing_timesheet e s d = true -> existing_timesheet e' s d = true.
Proof.
  unfold existing_timesheet. intros -> H.
  rewrite existsb_app, H. reflexivity.
Qed.

Lemma NoDup_map_slot_day_key (s : slot) (ds : list date) :
  NoDup ds -> NoDup (map (slot_day_key s) ds).
Proof.
  induction 1 as [|d ds Hd Hnd IH]; cbn [map]; constructor; [|exact IH].
  intros Hin. apply in_map_iff in Hin. destruct Hin as [d' [Hk Hin]].
  unfold slot_day_key in Hk. inversion Hk. subst. contradiction.
Qed.

(** Neither loop asks the existing entries where to go: a run that returns
    for some existing entries returns for any. *)
Lemma primary_loop_sim ex1 ex2 (s : date) (offsets : list Z) :
  forall st1 st2 st1',
    remaining_hours st1 = remaining_hours st2 ->
    primary_loop ex1 s offsets st1 = Ok st1' ->
    exists st2',
      primary_loop ex2 s offsets st2 = Ok st2' /\
      remaining_hours st1' = remaining_hours st2'.
Proof.
  induction offsets as [|k rest IH]; intros st1 st2 st1' Hrem H;
    cbn [primary_loop] in *.
  - inversion H; subst. eauto.
  - rewrite <- Hrem.
    destruct (Qle_bool (remaining_hours st1) 0).
    + inversion H; subst. eauto.
    + destruct (date_add s k) as [d|]; cbn [bind] in *; [|discriminate].
      apply (IH (day_body ex1 d st1) (day_body ex2 d st2) st1'); [|exact H].
      cbn [day_body remaining_hours]. now rewrite Hrem.
Qed.

Lemma spill_loop_sim ex1 ex2 (fuel : nat) :
  forall cur st1 st2 st1',
    remaining_hours st1 = remaining_hours st2 ->
    spill_loop fuel ex1 cur st1 = Some (Ok st1') ->
    exists st2',
      spill_loop fuel ex2 cur st2 = Some (Ok st2') /\
      remaining_hours st1' = remaining_hours st2'.
Proof.
  induction fuel as [|fuel IH]; intros cur st1 st2 st1' Hrem H;
    cbn [spill_loop] in *; rewrite <- Hrem;
    destruct (Qlt_bool 0 (remaining_hours st1)); try discriminate;
    try (inversion H; subst; eauto; fail).
  destruct (date_add cur 1) as [d|]; [|discriminate].
  apply (IH d (day_body ex1 d st1) (day_body ex2 d st2) st1'); [|exact H].
  cbn [day_body remaining_hours]. now rewrite Hrem.
Qed.

Lemma distribute_state_sim ex1 ex2 (fuel : nat) (total_hours : hours) (s e : date)
      (st1 : dstate) :
  distribute_state fuel total_hours s e ex1 = Some (Ok st1) ->
  exists st2, distribute_state fuel total_hours s e ex2 = Some (Ok st2).
Proof.
  unfold distribute_state. intros H.
  destruct (primary_loop ex1 _ _ _) as [p1|] eqn:H1; [|discriminate].
  destruct (primary_loop_sim ex1 ex2 _ _ _ (mkD [] total_hours []) _ eq_refl H1)
    as [p2 [H2 Hrem]].
  rewrite H2.
  destruct (spill_loop_sim ex1 ex2 _ _ _ p2 _ Hrem H) as [st2 [Hs _]].
  eauto.
Qed.

Section MethodStore.

Variable strptime_date : string -> option date.
Variable str_date : date -> string.

Lemma new_line_keys (s : slot) (data : list allocation) (new : list line) :
  map l_vals new = map (timesheet_vals_of str_date s) data ->
  map line_key_of new = map (slot_day_key s) (map a_date data).
Proof.
  revert new. induction data as [|a data IH]; intros [|l new] H;
    try discriminate; [reflexivity|].
  cbn [map] in *. inversion H.
  rewrite (timesheet_vals_key str_date s a l) by assumption.
  f_equal. apply IH. assumption.
Qed.

Lemma slots_loop_nodup (fuel : nat) (sd ed : date) (spec : option Z) (slots : list slot) :
  sd <= ed ->
  forall e c e' c',
    NoDup (map line_key_of (account_analytic_line e)) ->
    slots_loop str_date fuel sd ed spec slots e c = Some (Ok (e', c')) ->
    NoDup (map line_key_of (account_analytic_line e')).
Proof.
  intros Hse. induction slots as [|s rest IH]; intros e c e' c' Hnd H.
  - cbn [slots_loop] in H. inversion H; subst. exact Hnd.
  - destruct (slots_loop_step _ _ _ _ _ _ _ _ _ _ H)
      as [[_ Hrest]|[Hpos [st [new1 [e2 [Hst [Hvals [Hsl [Hl Hrest]]]]]]]]].
    + apply (IH _ _ _ _ Hnd Hrest).
    + apply (IH _ _ _ _) with (2 := Hrest).
      rewrite Hl, map_app, (new_line_keys _ _ _ Hvals).
      destruct (distribute_state_allocs _ _ _ _ _ _ Hse Hpos Hst) as [Hok [Hdates _]].
      apply NoDup_app; [exact Hnd | apply NoDup_map_slot_day_key; exact Hdates|].
      intros k Hk Hin. apply in_map_iff in Hin. destruct Hin as [d [<- Hd]].
      apply in_map_iff in Hd. destruct Hd as [a [<- Ha]].
      rewrite Forall_forall in Hok. destruct (Hok a Ha) as [_ [_ Hfree]].
      apply existing_timesheet_iff in Hk. congruence.
Qed.

(** X7.  The method keeps the store free of duplicates: when no two lines
    of the store agree on slot, employee, project and date, none do after a
    call that returns. *)
Theorem no_duplicate_timesheets (fuel : nat) (self : env) (partner_id : Z)
        (start_date end_date : string) (specific_slot_id : option Z)
        (specific_hours : option hours) (self' : env) (r : response) :
  NoDup (map line_key_of (account_analytic_line self)) ->
  create_timesheet_from_effective_hours strptime_date str_date fuel self partner_id
    start_date end_date specific_slot_id specific_hours = Some (Ok (self', r)) ->
  NoDup (map line_key_of (account_analytic_line self')).
Proof.
  unfold create_timesheet_from_effective_hours, search_slots, error_response.
  intros Hnd H.
  destruct (strptime_date start_date) as [sd|]; [|inversion H; subst; exact Hnd].
  destruct (strptime_date end_date) as [ed|]; [|inversion H; subst; exact Hnd].
  destruct (ed <? sd) eqn:Hord; [inversion H; subst; exact Hnd|].
  apply Z.ltb_ge in Hord.
  destruct (filter _ (planning_slot self)) as [|s0 rest].
  - inversion H; subst. exact Hnd.
  - destruct (slots_loop _ _ _ _ _ _ _ _) as [[[e1 created]|ex]|] eqn:Hloop;
      try discriminate.
    inversion H; subst.
    apply (slots_loop_nodup _ _ _ _ _ Hord _ _ _ _) with (2 := Hloop).
    exact Hnd.
Qed.

(** A returning loop over the slots, run again on a store that holds the
    lines it left, finds an entry on every day it looks at and creates
    nothing. *)
Lemma slots_loop_again (fuel : nat) (sd ed : date) (spec : option Z) (slots : list slot) :
  sd <= ed ->
  forall e c e' c',
    slots_loop str_date fuel sd ed spec slots e c = Some (Ok (e', c')) ->
    forall E C extra,
      account_analytic_line E = account_analytic_line e' ++ extra ->
      exists E',
        slots_loop str_date fuel sd ed spec slots E C = Some (Ok (E', C)) /\
        account_analytic_line E' = account_analytic_line E /\
        planning_slot E' = planning_slot E.
Proof.
  intros Hse. induction slots as [|s rest IH]; intros e c e' c' H E C extra HE.
  - exists E. cbn [slots_loop]. auto.
  - destruct (slots_loop_step _ _ _ _ _ _ _ _ _ _ H)
      as [[Hle Hrest]|[Hpos [st [new1 [e2 [Hst [Hvals [Hsl [Hl Hrest]]]]]]]]].
    + cbn [slots_loop]. apply Qle_bool_iff in Hle. rewrite Hle.
      apply (IH _ _ _ _ Hrest _ _ _ HE).
    + destruct (slots_loop_new str_date _ _ _ _ _ Hse _ _ _ _ Hrest)
        as [new2 [Hl2 _]].
      destruct (distribute_state_sim _ (existing_timesheet E s) _ _ _ _ _ Hst)
        as [st2 Hst2].
      pose proof (distribute_state_closed _ _ _ _ _ _ Hse Hpos Hst) as Hc1.
      pose proof (distribute_state_closed _ _ _ _ _ _ Hse Hpos Hst2) as Hc2.
      destruct (distribute_state_allocs _ _ _ _ _ _ Hse Hpos Hst) as [_ [_ Hcov]].
      assert (Hall : forall d, In d (days_from sd (iterations_bound (slot_total_hours spec s))) ->
                               existing_timesheet E s d = true).
      { intros d Hd.
        assert (Hd1 : In d (looked_up st)).
        { rewrite Hc1, run_days_looked_up. exact Hd. }
        apply existing_timesheet_iff.
        rewrite HE, Hl2, Hl, !map_app, !in_app_iff.
        destruct (Hcov d Hd1) as [Hex|Hin].
        - left. left. left. apply existing_timesheet_iff. exact Hex.
        - left. left. right. rewrite (new_line_keys _ _ _ Hvals).
          apply in_map. exact Hin. }
      assert (Hdata : timesheet_data st2 = []).
      { rewrite Hc2, run_days_data. cbn [timesheet_data remaining_hours].
        rewrite app_nil_l. apply emitted_none. exact Hall. }
      cbn [slots_loop]. apply Qle_bool_false in Hpos. rewrite Hpos, Hst2, Hdata.
      cbn [create_loop].
      match goal with
      | |- context [slots_loop _ _ _ _ _ rest ?E1 C] =>
          destruct (IH _ _ _ _ Hrest E1 C extra) as [E' [HE1 [HE2 HE3]]]
      end.
      { cbn [account_analytic_line log_calls]. exact HE. }
      exists E'. split; [exact HE1|]. auto.
Qed.

(** X8.  A successful call run again on the store it left, with the same
    arguments, creates nothing: it returns success with an empty list of
    identifiers and leaves the lines as they are. *)
Theorem second_call_creates_nothing (fuel : nat) (self : env) (partner_id : Z)
        (start_date end_date : string) (specific_slot_id : option Z)
        (h1 h2 : option hours) (self' : env) (r : response) :
  create_timesheet_from_effective_hours strptime_date str_date fuel self partner_id
    start_date end_date specific_slot_id h1 = Some (Ok (self', r)) ->
  status r = "success"%string ->
  exists self'',
    create_timesheet_from_effective_hours strptime_date str_date fuel self' partner_id
      start_date end_date specific_slot_id h2
    = Some (Ok (self'', mkResponse "success" "Created 0 timesheet entries." (Some []))) /\
    account_analytic_line self'' = account_analytic_line self'.
Proof.
  unfold create_timesheet_from_effective_hours, search_slots, error_response.
  intros H Hstatus.
  destruct (strptime_date start_date) as [sd|];
    [|inversion H; subst; discriminate].
  destruct (strptime_date end_date) as [ed|];
    [|inversion H; subst; discriminate].
  destruct (ed <? sd) eqn:Hord; [inversion H; subst; discriminate|].
  apply Z.ltb_ge in Hord.
  destruct (filter _ (planning_slot self)) as [|s0 rest] eqn:Hslots;
    [inversion H; subst; discriminate|].
  destruct (slots_loop _ _ _ _ _ _ _ _) as [[[e1 created]|ex]|] eqn:Hloop;
    try discriminate.
  inversion H; subst. clear H.
  destruct (slots_loop_new str_date _ _ _ _ _ Hord _ _ _ _ Hloop)
    as [new [_ [Hsl _]]].
  cbn [planning_slot] in Hsl. rewrite Hsl, Hslots.
  match goal with
  | |- context [slots_loop _ _ _ _ _ _ ?E1 []] =>
      destruct (slots_loop_again _ _ _ _ _ Hord _ _ _ _ Hloop E1 [] [])
        as [E' [HE1 [HE2 _]]]
  end.
  { cbn [account_analytic_line]. now rewrite app_nil_r. }
  rewrite HE1. exists E'. split; [reflexivity | exact HE2].
Qed.

(** The end date tells the range loop where to stop and the spillover loop
    where to go on; what the two do together does not depend on it. *)
Lemma slots_loop_end_date (fuel1 fuel2 : nat) (sd e1 e2 : date) (spec : option Z)
      (slots : list slot) :
  sd <= e1 -> sd <= e2 ->
  forall e c r1 r2,
    slots_loop str_date fuel1 sd e1 spec slots e c = Some (Ok r1) ->
    slots_loop str_date fuel2 sd e2 spec slots e c = Some (Ok r2) ->
    r1 = r2.
Proof.
  intros He1 He2. induction slots as [|s rest IH]; intros e c r1 r2 H1 H2;
    cbn [slots_loop] in H1, H2.
  - congruence.
  - destruct (Qle_bool (slot_total_hours spec s) 0) eqn:E.
    + apply (IH _ _ _ _ H1 H2).
    + apply Qle_bool_false in E.
      destruct (distribute_state fuel1 _ _ _ _) as [[st1|]|] eqn:Hst1; try discriminate.
      destruct (distribute_state fuel2 _ _ _ _) as [[st2|]|] eqn:Hst2; try discriminate.
      rewrite (distribute_state_closed _ _ _ _ _ _ He1 E Hst1) in H1.
      rewrite (distribute_state_closed _ _ _ _ _ _ He2 E Hst2) in H2.
      destruct (create_loop _ _ _ _ _) as [en cr].
      apply (IH _ _ _ _ H1 H2).
Qed.

(** X2.  For a given start date the outcome of the method does not depend
    on the end date: two calls that differ in the end date alone, both end
    dates on or after the start date, and both returning, leave the same
    store and return the same dictionary. *)
Theorem end_date_irrelevant (fuel1 fuel2 : nat) (self : env) (partner_id : Z)
        (start_date end_date1 end_date2 : string) (specific_slot_id : option Z)
        (specific_hours : option hours) (sd e1 e2 : date)
        (o1 o2 : env * response) :
  strptime_date start_date = Some sd ->
  strptime_date end_date1 = Some e1 ->
  strptime_date end_date2 = Some e2 ->
  sd <= e1 -> sd <= e2 ->
  create_timesheet_from_effective_hours strptime_date str_date fuel1 self partner_id
    start_date end_date1 specific_slot_id specific_hours = Some (Ok o1) ->
  create_timesheet_from_effective_hours strptime_date str_date fuel2 self partner_id
    start_date end_date2 specific_slot_id specific_hours = Some (Ok o2) ->
  o1 = o2.
Proof.
  unfold create_timesheet_from_effective_hours, search_slots, error_response.
  intros Hs H1 H2 Hle1 Hle2. rewrite Hs, H1, H2.
  replace (e1 <? sd) with false by (symmetry; apply Z.ltb_ge; lia).
  replace (e2 <? sd) with false by (symmetry; apply Z.ltb_ge; lia).
  destruct (filter _ (planning_slot self)) as [|s0 rest]; [congruence|].
  intros R1 R2.
  destruct (slots_loop str_date fuel1 _ _ _ _ _ _) as [[[en1 c1]|]|] eqn:L1;
    try discriminate.
  destruct (slots_loop str_date fuel2 _ _ _ _ _ _) as [[[en2 c2]|]|] eqn:L2;
    try discriminate.
  pose proof (slots_loop_end_date _ _ _ _ _ _ _ Hle1 Hle2 _ _ _ _ L1 L2) as Heq.
  inversion Heq; subst. congruence.
Qed.

End MethodStore.

Lemma no_duplicate_timesheets_witness :
  NoDup (map line_key_of (account_analytic_line Sample.store_done)) /\
  Runs.run 3 Sample.store_done 7 "2025-05-17" "2025-05-17" None
  = Some (Ok Runs.one_more_day) /\
  snd Runs.one_more_day
  = mkResponse "success" "Created 1 timesheet entries." (Some [102]) /\
  NoDup (map line_key_of (account_analytic_line (fst Runs.one_more_day))).
Proof.
  assert (Hnd : NoDup (map line_key_of (account_analytic_line Sample.store_done))).
  { repeat constructor; simpl; intuition discriminate. }
  assert (H : Runs.run 3 Sample.store_done 7 "2025-05-17" "2025-05-17" None
              = Some (Ok (fst Runs.one_more_day, snd Runs.one_more_day)))
    by (vm_compute; reflexivity).
  split; [exact Hnd|].
  split; [vm_compute; reflexivity|].
  split; [reflexivity|].
  apply (no_duplicate_timesheets Calendar.strptime_date Calendar.str_date
           3 Sample.store_done 7 "2025-05-17" "2025-05-17" None None _ _ Hnd H).
Defined.

Lemma second_call_creates_nothing_witness :
  Runs.run 3 Sample.store 7 "2025-05-16" "2025-05-17" None = Some (Ok Runs.both_slots) /\
  status (snd Runs.both_slots) = "success"%string /\
  List.length (account_analytic_line (fst Runs.both_slots)) = 5%nat /\
  exists self'',
    create_timesheet_from_effective_hours Calendar.strptime_date Calendar.str_date
      3 (fst Runs.both_slots) 7 "2025-05-16" "2025-05-17" None None
    = Some (Ok (self'', mkResponse "success" "Created 0 timesheet entries." (Some []))) /\
    account_analytic_line self'' = account_analytic_line (fst Runs.both_slots).
Proof.
  assert (H : Runs.run 3 Sample.store 7 "2025-05-16" "2025-05-17" None
              = Some (Ok (fst Runs.both_slots, snd Runs.both_slots)))
    by (vm_compute; reflexivity).
  split; [vm_compute; reflexivity|].
  split; [reflexivity|].
  split; [reflexivity|].
  apply (second_call_creates_nothing Calendar.strptime_date Calendar.str_date
           3 Sample.store 7 "2025-05-16" "2025-05-17" None None None _ _ H).
  reflexivity.
Defined.

Lemma end_date_irrelevant_witness :
  Runs.run 3 Sample.store 7 "2025-05-16" "2025-05-16" None = Some (Ok Runs.one_day_range) /\
  Runs.run 1 Sample.store 7 "2025-05-16" "2025-05-18" None = Some (Ok Runs.three_day_range) /\
  List.length (account_analytic_line (fst Runs.one_day_range)) = 5%nat /\
  Runs.one_day_range = Runs.three_day_range.
Proof.
  assert (H1 : Runs.run 3 Sample.store 7 "2025-05-16" "2025-05-16" None
               = Some (Ok Runs.one_day_range)) by (vm_compute; reflexivity).
  assert (H2 : Runs.run 1 Sample.store 7 "2025-05-16" "2025-05-18" None
               = Some (Ok Runs.three_day_range)) by (vm_compute; reflexivity).
  split; [exact H1|]. split; [exact H2|]. split; [reflexivity|].
  apply (end_date_irrelevant Calendar.strptime_date Calendar.str_date
           3 1 Sample.store 7 "2025-05-16" "2025-05-16" "2025-05-18" None None
           Sample.D Sample.D (Sample.D + 2)).
  - reflexivity.
  - reflexivity.
  - reflexivity.
  - vm_compute; discriminate.
  - vm_compute; discriminate.
  - exact H1.
  - exact H2.
Defined.

(** X9.  Every slot the search returns has a positive total: the effective
    hours when positive, else the allocated hours, which the search domain
    then requires positive.  The [continue] of lines 54-55 is never taken
    for a slot that came from the search. *)
Theorem found_slots_have_hours (d : slot_domain) (specific_slot_id : option Z) (s : slot) :
  slot_matches d s = true ->
  (0 < slot_total_hours specific_slot_id s)%Q /\
  Qle_bool (slot_total_hours specific_slot_id s) 0 = false.
Proof.
  unfold slot_matches. rewrite !andb_true_iff, orb_true_iff.
  intros [[[_ _] Hh] _].
  assert (H : (0 < slot_total_hours specific_slot_id s)%Q).
  { unfold slot_total_hours.
    destruct (Qlt_bool 0 (effective_hours s)) eqn:E.
    - apply Qlt_bool_iff in E.
      destruct (truthy_id specific_slot_id) as [i|]; [destruct (id s =? i)|]; exact E.
    - destruct Hh as [Hh|Hh]; [discriminate|].
      apply Qlt_bool_iff in Hh.
      destruct (truthy_id specific_slot_id) as [i|]; [destruct (id s =? i)|]; exact Hh. }
  split; [exact H | apply Qle_bool_false; exact H].
Qed.

Lemma found_slots_have_hours_witness :
  slot_matches (mkDomain 7 None) Sample.slot20 = true /\
  (0 < slot_total_hours None Sample.slot20)%Q /\
  Qle_bool (slot_total_hours None Sample.slot20) 0 = false.
Proof.
  split; [reflexivity|].
  apply (found_slots_have_hours (mkDomain 7 None) None Sample.slot20).
  reflexivity.
Defined.

Section PublishFacts.

Variable strptime_date : string -> option date.
Variable str_date : date -> string.
Variable publish_result : Type.
Variable super_action_publish : env -> slot -> result (env * publish_result).

(** With dates that parse and are dates, and every slot found within the
    calendar and the fuel, the method returns a dictionary. *)
Lemma method_returns (fuel : nat) (self : env) (partner_id : Z)
      (start_date end_date : string) (specific_slot_id : option Z)
      (specific_hours : option hours) (s e : date) :
  strptime_date start_date = Some s ->
  strptime_date end_date = Some e ->
  is_date s -> is_date e ->
  (forall sl,
      In sl (filter (slot_matches (mkDomain partner_id (truthy_id specific_slot_id)))
                    (planning_slot self)) ->
      (slot_total_hours specific_slot_id sl <= 8 * inject_Z (MAXORDINAL - s + 1))%Q /\
      (slot_total_hours specific_slot_id sl <= 8 * inject_Z (Z.of_nat fuel))%Q) ->
  exists o,
    create_timesheet_from_effective_hours strptime_date str_date fuel self partner_id
      start_date end_date specific_slot_id specific_hours = Some (Ok o).
Proof.
  unfold create_timesheet_from_effective_hours, search_slots.
  intros Hs He Hds Hde Hfit. rewrite Hs, He.
  destruct (e <? s) eqn:Hord; [eauto|].
  apply Z.ltb_ge in Hord.
  destruct (filter _ (planning_slot self)) as [|sl rest] eqn:Hslots; [eauto|].
  match goal with
  | |- context [slots_loop _ _ _ _ _ _ ?en ?cr] =>
      destruct (slots_loop_returns str_date fuel s e specific_slot_id (sl :: rest)
                  Hds Hde Hord Hfit en cr) as [self' [new [Hl _]]]
  end.
  rewrite Hl. eauto.
Qed.

(** X10.  Publishing a slot that has a resource and a non-zero identifier,
    when the base method returns, [strptime] reads back the strings of the
    dates of the slot's start and end, and the hours of the slots found
    fit the calendar from the start date on, returns what the base method
    returned, whatever the generation of timesheets reported; and every
    line it adds to the store the base method left is a timesheet of the
    published slot for that resource, of more than 0 and at most 8 hours,
    dated on or after the date of the slot's start. *)
Theorem publish_creates_for_published_slot (fuel : nat) (e e1 : env) (self : slot)
        (start_datetime end_datetime : datetime) (resource : Z)
        (res : publish_result) :
  id self <> 0 ->
  resource_id self = Some resource ->
  strptime_date (str_date (date_of start_datetime)) = Some (date_of start_datetime) ->
  strptime_date (str_date (date_of end_datetime)) = Some (date_of end_datetime) ->
  is_date (date_of start_datetime) -> is_date (date_of end_datetime) ->
  super_action_publish e self = Ok (e1, res) ->
  (forall sl,
      In sl (filter (slot_matches (mkDomain resource (Some (id self))))
                    (planning_slot e1)) ->
      (slot_total_hours (Some (id self)) sl
       <= 8 * inject_Z (MAXORDINAL - date_of start_datetime + 1))%Q /\
      (slot_total_hours (Some (id self)) sl <= 8 * inject_Z (Z.of_nat fuel))%Q) ->
  exists e2 new,
    action_publish strptime_date str_date publish_result super_action_publish
                   fuel e self start_datetime end_datetime = Some (Ok (e2, res)) /\
    account_analytic_line e2 = account_analytic_line e1 ++ new /\
    planning_slot e2 = planning_slot e1 /\
    Forall (fun l =>
              v_slot_id (l_vals l) = Some (id self) /\
              v_partner_id (l_vals l) = Some resource /\
              (0 < v_unit_amount (l_vals l))%Q /\ (v_unit_amount (l_vals l) <= 8)%Q /\
              date_of start_datetime <= v_date (l_vals l))
           new.
Proof.
  intros Hid Hres Hstart Hend Hds Hde Hsuper Hfit.
  assert (Htruthy : truthy_id (Some (id self)) = Some (id self)).
  { cbn [truthy_id]. apply Z.eqb_neq in Hid. now rewrite Hid. }
  destruct (method_returns fuel e1 resource
              (str_date (date_of start_datetime)) (str_date (date_of end_datetime))
              (Some (id self)) None _ _ Hstart Hend Hds Hde)
    as [[e2 resp] Hcall].
  { rewrite Htruthy. exact Hfit. }
  exists e2.
  destruct (method_new_lines _ _ _ _ _ _ _ _ _ _ _ Hcall) as [new [Hl [Hs [_ Hall]]]].
  exists new.
  split.
  { unfold action_publish, action_generate_timesheets.
    rewrite Hsuper, Hres, Hcall. reflexivity. }
  repeat split; auto.
  eapply Forall_impl; [|exact Hall].
  intros l [s [a [sd [Hin [Hsd [Hv [[Hpos Hcap] Hd]]]]]]].
  rewrite Hstart in Hsd. inversion Hsd; subst sd.
  apply filter_In in Hin. destruct Hin as [_ Hm].
  unfold slot_matches in Hm. rewrite Htruthy in Hm. cbn [dom_resource dom_id] in Hm.
  rewrite !andb_true_iff in Hm. destruct Hm as [[[Hr _] _] Hi].
  apply option_Z_eqb_eq in Hr. apply Z.eqb_eq in Hi.
  rewrite Hv. cbn [timesheet_vals_of v_slot_id v_partner_id v_unit_amount v_date].
  rewrite Hi, Hr. repeat split; auto.
Qed.

End PublishFacts.

Lemma publish_creates_for_published_slot_witness :
  List.length (account_analytic_line (fst Runs.slot12_alone)) = 3%nat /\
  exists e2 new,
    action_publish Calendar.strptime_date Calendar.str_date unit
                   (fun e _ => Ok (e, tt))
                   3 Sample.store Sample.slot20
                   (mkDatetime Sample.D 32400) (mkDatetime (Sample.D + 1) 61200)
    = Some (Ok (e2, tt)) /\
    account_analytic_line e2 = account_analytic_line Sample.store ++ new /\
    planning_slot e2 = planning_slot Sample.store /\
    Forall (fun l =>
              v_slot_id (l_vals l) = Some 12 /\
              v_partner_id (l_vals l) = Some 7 /\
              (0 < v_unit_amount (l_vals l))%Q /\ (v_unit_amount (l_vals l) <= 8)%Q /\
              Sample.D <= v_date (l_vals l))
           new.
Proof.
  split; [reflexivity|].
  apply (publish_creates_for_published_slot
           Calendar.strptime_date Calendar.str_date unit (fun e _ => Ok (e, tt))
           3 Sample.store Sample.store Sample.slot20
           (mkDatetime Sample.D 32400) (mkDatetime (Sample.D + 1) 61200)
           7 tt).
  - vm_compute; discriminate.
  - reflexivity.
  - vm_compute; reflexivity.
  - vm_compute; reflexivity.
  - vm_compute; split; discriminate.
  - vm_compute; split; discriminate.
  - reflexivity.
  - intros sl Hin. vm_compute in Hin.
    destruct Hin as [<-|[]]; split; vm_compute; discriminate.
Defined.

(** ** Hours of days with an existing entry *)

(** Over any days, what is allocated, what the days with an existing entry
    would have had, and what remains add up to what was there. *)
Lemma emitted_split_sum existing (ds : list date) :
  forall r,
    (sum_hours (emitted existing ds r) + sum_hours (emitted (free existing) ds r)
     + rem_after (List.length ds) r == r)%Q.
Proof.
  induction ds as [|d ds IH]; intros r.
  - simpl. lra.
  - cbn [emitted List.length rem_after].
    rewrite !sum_hours_app.
    specialize (IH (r - py_min r max_hours_per_day)%Q).
    unfold free at 1.
    destruct (existing d); cbn [negb sum_hours fold_right a_hours]; lra.
Qed.

(** X11.  The hours of a day that already has an entry are dropped, not
    moved to a later day: for a run that returns, the hours allocated and
    the shares [min(remaining, 8)] of the days with an existing entry add up
    to the total, so the allocations never exceed the total and fall short
    of it by exactly those shares. *)
Theorem hours_of_existing_days_are_dropped (fuel : nat) (total_hours : hours)
        (s e : date) existing (l : list allocation) :
  s <= e -> (0 < total_hours)%Q ->
  distribute fuel total_hours s e existing = Some (Ok l) ->
  (sum_hours l
   + sum_hours (emitted (free existing)
                        (days_from s (iterations_bound total_hours)) total_hours)
   == total_hours)%Q /\
  (sum_hours l <= total_hours)%Q /\
  Forall (fun a => existing (a_date a) = true /\ hours_ok a)
         (emitted (free existing) (days_from s (iterations_bound total_hours)) total_hours).
Proof.
  intros Hse Hpos H. unfold distribute in H.
  apply map_outcome_Ok in H. destruct H as [st [H ->]].
  rewrite (distribute_state_closed _ _ _ _ _ _ Hse Hpos H), run_days_data.
  cbn [timesheet_data remaining_hours]. rewrite app_nil_l.
  set (ds := days_from s (iterations_bound total_hours)).
  pose proof (emitted_split_sum existing ds total_hours) as Hsum.
  unfold ds in Hsum at 3. rewrite days_from_length in Hsum.
  destruct (rem_after_closed (iterations_bound total_hours) total_hours ltac:(lra))
    as [C1 _].
  specialize (C1 (iterations_bound_enough total_hours)).
  pose proof (emitted_hours_ok (free existing) ds total_hours) as Hok.
  unfold ds in Hok at 1. rewrite days_from_length in Hok.
  specialize (Hok (active_bound _ Hpos)).
  assert (Hnn : (0 <= sum_hours (emitted (free existing) ds total_hours))%Q).
  { clear -Hok. induction Hok as [|a l [Ha _] _ IH]; simpl; [lra|].
    fold (sum_hours l). lra. }
  split; [lra|]. split; [lra|].
  apply Forall_forall. intros a Ha. split.
  - assert (Hin : In (a_date a) (map a_date (emitted (free existing) ds total_hours)))
      by (apply in_map; exact Ha).
    rewrite emitted_dates in Hin. apply filter_In in Hin.
    destruct Hin as [_ Hf]. unfold free in Hf.
    destruct (existing (a_date a)); [reflexivity | discriminate].
  - rewrite Forall_forall in Hok. apply Hok. exact Ha.
Qed.

Lemma hours_of_existing_days_are_dropped_witness :
  distribute 3 24 Sample.D Sample.D Sample.day_after_taken
  = Some (Ok [mkAlloc Sample.D 8; mkAlloc (Sample.D + 2) 8]) /\
  emitted (free Sample.day_after_taken) (days_from Sample.D (iterations_bound 24)) 24
  = [mkAlloc (Sample.D + 1) 8] /\
  Qeq (sum_hours [mkAlloc Sample.D 8; mkAlloc (Sample.D + 2) 8]
       + sum_hours (emitted (free Sample.day_after_taken)
                            (days_from Sample.D (iterations_bound 24)) 24))
      24.
Proof.
  split; [reflexivity|].
  split; [reflexivity|].
  apply (hours_of_existing_days_are_dropped 3 24 Sample.D Sample.D
                                            Sample.day_after_taken).
  - vm_compute; discriminate.
  - reflexivity.
  - reflexivity.
Defined.

(** ** The calendar as the only way to fail *)

Section MethodOverflow.

Variable strptime_date : string -> option date.
Variable str_date : date -> string.

Lemma slots_loop_overflows (fuel : nat) (sd ed : date) (spec : option Z)
      (slots : list slot) :
  is_date sd -> is_date ed -> sd <= ed ->
  (forall sl, In sl slots ->
              (slot_total_hours spec sl <= 8 * inject_Z (Z.of_nat fuel))%Q) ->
  (exists sl, In sl slots /\
              (8 * inject_Z (MAXORDINAL - sd + 1) < slot_total_hours spec sl)%Q) ->
  forall e c,
    slots_loop str_date fuel sd ed spec slots e c = Some (Raise OverflowError).
Proof.
  intros Hs He Hse.
  assert (Hcal0 : (0 <= 8 * inject_Z (MAXORDINAL - sd + 1))%Q).
  { unfold is_date in Hs. pose proof (inject_Z_ge0 (MAXORDINAL - sd + 1) ltac:(lia)). lra. }
  induction slots as [|s rest IH]; intros Hfuel [sl [Hin Hbig]] e c.
  - destruct Hin.
  - cbn [slots_loop].
    assert (Hrest : (slot_total_hours spec s <= 8 * inject_Z (MAXORDINAL - sd + 1))%Q ->
                    exists sl', In sl' rest /\
                      (8 * inject_Z (MAXORDINAL - sd + 1) < slot_total_hours spec sl')%Q).
    { intros Hfit. destruct Hin as [->|Hin]; [lra|]. eauto. }
    specialize (IH (fun x Hx => Hfuel x (or_intror Hx))).
    destruct (Qle_bool (slot_total_hours spec s) 0) eqn:E.
    + apply Qle_bool_iff in E. apply IH. apply Hrest. lra.
    + apply Qle_bool_false in E.
      destruct (Qlt_le_dec (8 * inject_Z (MAXORDINAL - sd + 1)) (slot_total_hours spec s))
        as [Hover|Hfit].
      * rewrite distribute_state_overflows; auto.
        apply Hfuel. now left.
      * destruct (distribute_state_returns fuel (slot_total_hours spec s) sd ed
                    (existing_timesheet e s)) as [st Hst]; auto; try lra.
        { apply Hfuel. now left. }
        rewrite Hst. destruct (create_loop _ _ _ _ _) as [e2 created].
        apply IH. apply Hrest. exact Hfit.
Qed.

(** X12.  With valid dates, when one of the slots found has more hours
    than the days from the start date to 9999-12-31 take at eight hours a
    day, the method raises [OverflowError] and returns no dictionary. *)
Theorem method_overflows (fuel : nat) (self : env) (partner_id : Z)
        (start_date end_date : string) (specific_slot_id : option Z)
        (specific_hours : option hours) (s e : date) :
  strptime_date start_date = Some s ->
  strptime_date end_date = Some e ->
  is_date s -> is_date e -> s <= e ->
  (forall sl,
      In sl (filter (slot_matches (mkDomain partner_id (truthy_id specific_slot_id)))
                    (planning_slot self)) ->
      (slot_total_hours specific_slot_id sl <= 8 * inject_Z (Z.of_nat fuel))%Q) ->
  (exists sl,
      In sl (filter (slot_matches (mkDomain partner_id (truthy_id specific_slot_id)))
                    (planning_slot self)) /\
      (8 * inject_Z (MAXORDINAL - s + 1) < slot_total_hours specific_slot_id sl)%Q) ->
  create_timesheet_from_effective_hours strptime_date str_date fuel self partner_id
    start_date end_date specific_slot_id specific_hours = Some (Raise OverflowError).
Proof.
  unfold create_timesheet_from_effective_hours, search_slots.
  intros Hs He Hds Hde Hse Hfuel Hbig.
  rewrite Hs, He.
  replace (e <? s) with false by (symmetry; apply Z.ltb_ge; lia).
  destruct (filter _ (planning_slot self)) as [|sl rest] eqn:Hslots.
  - destruct Hbig as [x [[] _]].
  - rewrite (slots_loop_overflows fuel s e specific_slot_id (sl :: rest)); auto.
Qed.

End MethodOverflow.

Lemma method_overflows_witness :
  Calendar.strptime_date "9999-12-30" = Some (MAXORDINAL - 1) /\
  Calendar.strptime_date "9999-12-31" = Some MAXORDINAL /\
  create_timesheet_from_effective_hours Calendar.strptime_date Calendar.str_date
    3 Sample.store 7 "9999-12-30" "9999-12-31" None None
  = Some (Raise OverflowError).
Proof.
  split; [reflexivity|].
  split; [reflexivity|].
  apply (method_overflows Calendar.strptime_date Calendar.str_date
           3 Sample.store 7 "9999-12-30" "9999-12-31" None None
           (MAXORDINAL - 1) MAXORDINAL).
  - reflexivity.
  - reflexivity.
  - vm_compute; split; discriminate.
  - vm_compute; split; discriminate.
  - vm_compute; discriminate.
  - intros sl Hin. vm_compute in Hin.
    destruct Hin as [<-|[<-|[]]]; vm_compute; discriminate.
  - exists Sample.slot20. split; [vm_compute; auto | reflexivity].
Defined.
